(** * Retrieval-augmented answer assembly: a shallow embedding

    The development follows the Python sources of the backend:
    - [utils/chunker.py]   : [chunk_text], [chunk_documents]
    - [retriever.py]       : [Retriever.retrieve]
    - [rag_pipeline.py]    : [format_citation], [construct_prompt],
                             [generate_answer]
    - [ingest.py]          : [load_document], [ingest_documents]

    Python values are embedded as follows.  A [str] is the list of its code
    points; an [int] is a [Z]; a [dict] with string keys is a [gmap string];
    a [float] is kept as its binary64 bit pattern (the pipeline only moves
    floats around, tests them for truth and prints them).  A call that may
    raise returns an [outcome]; a loop that may run forever takes fuel and
    answers [NoFuel] when the fuel is exhausted. *)

From Stdlib Require Import ZArith NArith Lia List Ascii String.
From stdpp Require Import gmap strings list pretty.

Local Open Scope Z_scope.

(* ===================================================================== *)
(** ** Python strings *)
(* ===================================================================== *)

Module PyStr.

(** A Python [str]: a sequence of Unicode code points. *)
Abbreviation pystr := (list N).

(** An ASCII literal of the source, as a [pystr]. *)
Fixpoint lit (s : string) : pystr :=
  match s with
  | EmptyString => []
  | String a r => N_of_ascii a :: lit r
  end.

(** [len(s)] *)
Definition len (s : pystr) : Z := Z.of_nat (length s).

(** [c.isspace()] for one code point: the characters [str.strip()]
    removes when called without an argument. *)
Definition isspace (c : N) : bool :=
  ((9 <=? c) && (c <=? 13) || (28 <=? c) && (c <=? 32)
   || (c =? 133) || (c =? 160) || (c =? 5760)
   || (8192 <=? c) && (c <=? 8202)
   || (c =? 8232) || (c =? 8233) || (c =? 8239) || (c =? 8287)
   || (c =? 12288))%N.

(** [s.lstrip()] *)
Fixpoint lstrip (s : pystr) : pystr :=
  match s with
  | [] => []
  | c :: r => if isspace c then lstrip r else s
  end.

(** [s.rstrip()] *)
Definition rstrip (s : pystr) : pystr := rev (lstrip (rev s)).

(** [s.strip()] *)
Definition strip (s : pystr) : pystr := rstrip (lstrip s).

(** An index of a slice, brought into [0 .. len]: a negative index counts
    from the end, and anything out of range is clipped. *)
Definition clip (n i : Z) : Z :=
  if i <? 0 then Z.max (i + n) 0 else Z.min i n.

(** [s[start:stop]] *)
Definition slice (s : pystr) (start stop : Z) : pystr :=
  let a := clip (len s) start in
  let b := clip (len s) stop in
  take (Z.to_nat (b - a)) (drop (Z.to_nat a) s).

(** Truth value of a [str]: non-empty. *)
Definition nonempty (s : pystr) : bool :=
  match s with [] => false | _ :: _ => true end.

(** [str(n)] for an [int]. *)
Definition of_int (z : Z) : pystr := lit (pretty z).

(** The last field of [s.split(sep)] for a one-character separator:
    what follows the last occurrence of [sep], or all of [s]. *)
Fixpoint last_field (sep : N) (s : pystr) : pystr :=
  match s with
  | [] => []
  | c :: r =>
      if (c =? sep)%N
      then last_field sep r
      else if existsb (N.eqb sep) r then last_field sep r else s
  end.

(** [sep.join(parts)] *)
Fixpoint join (sep : pystr) (parts : list pystr) : pystr :=
  match parts with
  | [] => []
  | [p] => p
  | p :: rest => p ++ sep ++ join sep rest
  end.

End PyStr.
Import PyStr.

(* ===================================================================== *)
(** ** Python values, exceptions and outcomes *)
(* ===================================================================== *)

(** The values the pipeline stores in its dictionaries. *)
Inductive pyval : Type :=
| VNone
| VBool (b : bool)
| VInt (z : Z)
| VFloat (bits : Z)
| VStr (s : pystr).

Global Instance pyval_eq_dec : EqDecision pyval.
Proof. solve_decision. Defined.

(** A Python [dict] with string keys. *)
Abbreviation pydict := (gmap string pyval).

(** Truth value of a Python value, as [if v:] tests it.  A float is false
    exactly when it is [0.0] or [-0.0]. *)
Definition truthy (v : pyval) : bool :=
  match v with
  | VNone => false
  | VBool b => b
  | VInt z => negb (z =? 0)
  | VFloat bits => negb (bits mod 2 ^ 63 =? 0)
  | VStr s => nonempty s
  end.

(** The float literal [0.0]. *)
Definition float_zero : pyval := VFloat 0.

Inductive exn : Type :=
| AttributeError
| KeyError (key : string)
| IndexError
| TypeError
| ValueError (msg : pystr)
| ExternalError (what : string).

(** What running a piece of the program gives: a value, an exception, or
    no answer within the fuel given. *)
Inductive outcome (A : Type) : Type :=
| Ret (a : A)
| Raise (e : exn)
| NoFuel.
Arguments Ret {A} a.
Arguments Raise {A} e.
Arguments NoFuel {A}.

Global Instance exn_eq_dec : EqDecision exn.
Proof. solve_decision. Defined.

Global Instance outcome_eq_dec {A} `{EqDecision A} : EqDecision (outcome A).
Proof. solve_decision. Defined.

Definition obind {A B} (m : outcome A) (k : A -> outcome B) : outcome B :=
  match m with
  | Ret a => k a
  | Raise e => Raise e
  | NoFuel => NoFuel
  end.

(* ===================================================================== *)
(** ** utils/chunker.py *)
(* ===================================================================== *)

Module Chunker.

(** The local variables of the loop of [chunk_text]. *)
Record loop_state : Type := LoopState {
  start : Z;
  chunk_index : Z;
  chunks : list pydict
}.

Section ChunkText.
Variable text : pystr.
Variable chunk_size chunk_overlap : Z.
Variable metadata : option pydict.

(** [{"text": chunk, "chunk_index": chunk_index, **(metadata or {})}]:
    the keys of [metadata] are written last, so they win. *)
Definition chunk_data (chunk : pystr) (idx : Z) : pydict :=
  default ∅ metadata
    ∪ <["text" := VStr chunk]> (<["chunk_index" := VInt idx]> ∅).

(** [text[start:end].strip()] for the window that begins at [s]. *)
Definition window (s : Z) : pystr :=
  strip (slice text s (s + chunk_size)).

(** One pass through the body of the [while] loop.  The boolean tells
    whether the final [if start >= len(text): break] lets the loop go
    on. *)
Definition loop_body (st : loop_state) : loop_state * bool :=
  let end_ := start st + chunk_size in
  let chunk := window (start st) in
  let '(idx', chunks') :=
    if nonempty chunk
    then (chunk_index st + 1,
          chunks st ++ [chunk_data chunk (chunk_index st)])
    else (chunk_index st, chunks st) in
  let start' := end_ - chunk_overlap in
  (LoopState start' idx' chunks', negb (len text <=? start')).

(** [while start < len(text): ...], with the number of passes made. *)
Fixpoint loop (fuel : nat) (st : loop_state) : outcome (loop_state * nat) :=
  if start st <? len text then
    match fuel with
    | O => NoFuel
    | S fuel' =>
        let '(st', go_on) := loop_body st in
        if go_on
        then obind (loop fuel' st') (fun '(r, n) => Ret (r, S n))
        else Ret (st', 1%nat)
    end
  else Ret (st, 0%nat).

(** [chunks = []; start = 0; chunk_index = 0] *)
Definition init : loop_state := LoopState 0 0 [].

(** [chunk_text], with the number of passes of its loop. *)
Definition chunk_text_passes (fuel : nat) : outcome (list pydict * nat) :=
  if negb (nonempty text) || negb (nonempty (strip text))
  then Ret ([], 0%nat)
  else obind (loop fuel init)
             (fun '(st, n) => Ret (chunks st, n)).

(** [chunk_text(text, chunk_size, chunk_overlap, metadata)] *)
Definition chunk_text (fuel : nat) : outcome (list pydict) :=
  obind (chunk_text_passes fuel) (fun '(cs, _) => Ret cs).

(** The state after [n] passes of the body, whatever the loop test
    says: the loop of [chunk_text] runs through a prefix of these. *)
Definition pass (st : loop_state) : loop_state := fst (loop_body st).

Fixpoint passes (n : nat) (st : loop_state) : loop_state :=
  match n with
  | O => st
  | S k => passes k (pass st)
  end.

End ChunkText.

(** [ceil(a / b)] for [b > 0]. *)
Definition ceil_div (a b : Z) : Z := (a + b - 1) / b.

(** [chunk_text] as [chunk_documents] calls it, on whatever value the
    document holds under ["text"]: a value that is not a [str] either
    fails the test [not text] and gives no chunk, or has no [strip]. *)
Definition chunk_text_value (text : pyval) (chunk_size chunk_overlap : Z)
    (metadata : option pydict) (fuel : nat) : outcome (list pydict) :=
  match text with
  | VStr s => chunk_text s chunk_size chunk_overlap metadata fuel
  | v => if truthy v then Raise AttributeError else Ret []
  end.

(** The loop of [chunk_documents]; [all_chunks] is the list built so
    far.  Every call of [chunk_text] gets the same fuel. *)
Fixpoint chunk_documents_from (fuel : nat) (chunk_size chunk_overlap : Z)
    (all_chunks : list pydict) (documents : list pydict)
    : outcome (list pydict) :=
  match documents with
  | [] => Ret all_chunks
  | doc :: rest =>
      let text := default (VStr []) (doc !! "text") in
      let metadata := delete "text" doc in
      obind (chunk_text_value text chunk_size chunk_overlap
               (Some metadata) fuel)
        (fun doc_chunks =>
           chunk_documents_from fuel chunk_size chunk_overlap
             (all_chunks ++ doc_chunks) rest)
  end.

(** [chunk_documents(documents, chunk_size, chunk_overlap)] *)
Definition chunk_documents (fuel : nat) (documents : list pydict)
    (chunk_size chunk_overlap : Z) : outcome (list pydict) :=
  chunk_documents_from fuel chunk_size chunk_overlap [] documents.

End Chunker.

(* ===================================================================== *)
(** ** The outside world *)
(* ===================================================================== *)

(** An embedding vector: a list of floats. *)
Abbreviation embedding := (list Z).

(** One raw hit of the vector store, as [Retriever.retrieve] sees it: the
    entries under ["id"], ["score"] and ["metadata"], each of which may be
    absent.  The metadata entry is a JSON object or some other value. *)
Inductive hit_meta : Type :=
| MetaDict (d : pydict)
| MetaOther (v : pyval).

Record hit : Type := Hit {
  hit_id : option pyval;
  hit_score : option pyval;
  hit_metadata : option hit_meta
}.

(** A record sent to the vector store. *)
Record vector_record : Type := VectorRecord {
  vr_id : pystr;
  vr_vector : embedding;
  vr_metadata : pydict
}.

(** The JSON body of a request to the vector store. *)
Inductive payload : Type :=
| SearchPayload (vector : embedding) (top_k : Z) (include_metadata : bool)
| VectorsPayload (vectors : list vector_record).

(** The JSON object of a response: its scalar entries and, when it has
    one, the hit list under ["results"]. *)
Record json_body : Type := JsonBody {
  body_fields : pydict;
  body_results : option (list hit)
}.

(** What a call of an external service gives: a value or an exception. *)
Inductive reply (A : Type) : Type :=
| Reply (a : A)
| Fails (e : exn).
Arguments Reply {A} a.
Arguments Fails {A} e.

Definition of_reply {A} (r : reply A) : outcome A :=
  match r with
  | Reply a => Ret a
  | Fails e => Raise e
  end.

(** What [session.post] returns once [raise_for_status] has passed;
    [response.json()] may still fail. *)
Record response : Type := Response {
  json : reply json_body
}.

(** The calls made to the external services, oldest first. *)
Inductive event : Type :=
| EvEmbeddings (model : pystr) (input : list pyval)
| EvPost (url : pystr) (body : payload)
| EvChat (model system user : pystr).

(** The state of the world the program can change: how often the clock
    has been read and which services have been called. *)
Record world : Type := World {
  clock_reads : nat;
  calls : list event
}.

Global Instance hit_meta_eq_dec : EqDecision hit_meta.
Proof. solve_decision. Defined.

Global Instance hit_eq_dec : EqDecision hit.
Proof. solve_decision. Defined.

Global Instance vector_record_eq_dec : EqDecision vector_record.
Proof. solve_decision. Defined.

Global Instance payload_eq_dec : EqDecision payload.
Proof. solve_decision. Defined.

Global Instance event_eq_dec : EqDecision event.
Proof. solve_decision. Defined.

Global Instance world_eq_dec : EqDecision world.
Proof. solve_decision. Defined.

(** What the program does not compute itself.  The services answer
    depending on the calls made before; [time_time n] is what the [n]-th
    call of [time.time()] returns. *)
Record services : Type := Services {
  time_time : nat -> Z;
  float_elapsed_ms : Z -> Z -> Z;      (* [(t1 - t0) * 1000] *)
  float_round2 : Z -> Z;               (* [round(x, 2)] *)
  float_repr : Z -> pystr;             (* [str(x)] *)
  str_lower : pystr -> pystr;          (* [s.lower()] *)
  embeddings_create :
    list event -> pystr -> list pyval -> reply (list embedding);
  session_post : list event -> pystr -> payload -> reply response;
  chat_create : list event -> pystr -> pystr -> pystr -> reply pyval;
  pdf_pages : list Byte.byte -> reply (list pystr);
  docx_paragraphs : list Byte.byte -> reply (list pystr)
}.

(** Computations that read the clock and call services. *)
Definition M (A : Type) : Type := world -> outcome A * world.

Definition ret {A} (a : A) : M A := fun w => (Ret a, w).
Definition raise {A} (e : exn) : M A := fun w => (Raise e, w).
Definition lift {A} (o : outcome A) : M A := fun w => (o, w).

Definition bind {A B} (m : M A) (k : A -> M B) : M B :=
  fun w =>
    match m w with
    | (Ret a, w') => k a w'
    | (Raise e, w') => (Raise e, w')
    | (NoFuel, w') => (NoFuel, w')
    end.

Declare Scope prog_scope.
Delimit Scope prog_scope with prog.
Notation "'let!' x ':=' m 'in' k" := (bind m (fun x => k))
  (at level 10, x pattern, m at level 100, k at level 200) : prog_scope.

Section Effects.
Variable svc : services.

(** [time.time()] *)
Definition now : M Z :=
  fun w => (Ret (time_time svc (clock_reads w)),
            World (S (clock_reads w)) (calls w)).

Definition call_embeddings (model : pystr) (input : list pyval)
    : M (list embedding) :=
  fun w => (of_reply (embeddings_create svc (calls w) model input),
            World (clock_reads w) (calls w ++ [EvEmbeddings model input])).

Definition call_post (url : pystr) (body : payload) : M response :=
  fun w => (of_reply (session_post svc (calls w) url body),
            World (clock_reads w) (calls w ++ [EvPost url body])).

Definition call_chat (model system user : pystr) : M pyval :=
  fun w => (of_reply (chat_create svc (calls w) model system user),
            World (clock_reads w) (calls w ++ [EvChat model system user])).

(** [str(v)], as an f-string renders a value. *)
Definition py_str (v : pyval) : pystr :=
  match v with
  | VNone => lit "None"
  | VBool true => lit "True"
  | VBool false => lit "False"
  | VInt z => of_int z
  | VFloat bits => float_repr svc bits
  | VStr s => s
  end.

(** [round(v, 2)] *)
Definition py_round2 (v : pyval) : outcome pyval :=
  match v with
  | VFloat bits => Ret (VFloat (float_round2 svc bits))
  | VInt z => Ret (VInt z)
  | VBool b => Ret (VInt (if b then 1 else 0))
  | VNone | VStr _ => Raise TypeError
  end.

End Effects.

Local Open Scope prog_scope.

(* ===================================================================== *)
(** ** endee_client.py *)
(* ===================================================================== *)

Module EndeeClient.

Record t : Type := Client { base_url : pystr }.

(** What [search] returns. *)
Record search_result : Type := SearchResult {
  results : list hit;
  search_latency_ms : pyval
}.

Section Client.
Variable svc : services.
Variable self : t.

(** [search(index_name, query_vector, top_k, include_metadata)] *)
Definition search (index_name : pystr) (query_vector : embedding)
    (top_k : Z) (include_metadata : bool) : M search_result :=
  let url :=
    base_url self ++ lit "/indexes/" ++ index_name ++ lit "/search" in
  let body := SearchPayload query_vector top_k include_metadata in
  let! start_time := now svc in
  let! resp := call_post svc url body in
  let! t1 := now svc in
  let retrieval_latency_ms := float_elapsed_ms svc start_time t1 in
  let! result := lift (of_reply (json resp)) in
  ret (SearchResult (default [] (body_results result))
         (VFloat (float_round2 svc retrieval_latency_ms))).

(** [insert_documents(index_name, vectors)]: the JSON object of the
    response, with ["elapsed_ms"] written into it. *)
Definition insert_documents (index_name : pystr)
    (vectors : list vector_record) : M pydict :=
  let url :=
    base_url self ++ lit "/indexes/" ++ index_name ++ lit "/vectors" in
  let! start_time := now svc in
  let! resp := call_post svc url (VectorsPayload vectors) in
  let! t1 := now svc in
  let elapsed_ms := float_elapsed_ms svc start_time t1 in
  let! result := lift (of_reply (json resp)) in
  ret (<["elapsed_ms" := VFloat (float_round2 svc elapsed_ms)]>
         (body_fields result)).

End Client.

End EndeeClient.

(* ===================================================================== *)
(** ** retriever.py *)
(* ===================================================================== *)

Module Retriever.

Record t : Type := Make {
  endee_client : EndeeClient.t;
  index_name : pystr;
  embedding_model : pystr
}.

(** What [retrieve] returns. *)
Record retrieval : Type := Retrieval {
  chunks : list pydict;
  retrieval_latency_ms : pyval;
  query : pystr
}.

(** [item.get("metadata", {})], and then the first [metadata.get]. *)
Definition metadata_of (item : hit) : outcome pydict :=
  match hit_metadata item with
  | None => Ret ∅
  | Some (MetaDict d) => Ret d
  | Some (MetaOther _) => Raise AttributeError
  end.

(** The dictionary literal built for one hit, given its metadata. *)
Definition chunk_of (item : hit) (metadata : pydict) : pydict :=
  list_to_map
    [ ("id", default (VStr []) (hit_id item));
      ("similarity", default float_zero (hit_score item));
      ("text", default (VStr []) (metadata !! "text"));
      ("document_name", default (VStr []) (metadata !! "document_name"));
      ("page_number", default VNone (metadata !! "page_number"));
      ("paragraph_index", default VNone (metadata !! "paragraph_index"));
      ("chunk_index", default (VInt 0) (metadata !! "chunk_index")) ].

(** One pass of the loop [for item in result["results"]]. *)
Definition normalize_hit (item : hit) : outcome pydict :=
  obind (metadata_of item) (fun metadata => Ret (chunk_of item metadata)).

(** The whole loop; [chunks] is the list built so far. *)
Fixpoint normalize_from (chunks : list pydict) (items : list hit)
    : outcome (list pydict) :=
  match items with
  | [] => Ret chunks
  | item :: rest =>
      obind (normalize_hit item)
        (fun chunk => normalize_from (chunks ++ [chunk]) rest)
  end.

Definition normalize (items : list hit) : outcome (list pydict) :=
  normalize_from [] items.

Section Retrieve.
Variable svc : services.
Variable self : t.

(** [generate_query_embedding(query)] *)
Definition generate_query_embedding (query : pystr) : M embedding :=
  let! data := call_embeddings svc (embedding_model self) [VStr query] in
  match data with
  | [] => raise IndexError
  | e :: _ => ret e
  end.

(** [retrieve(query, top_k)] *)
Definition retrieve (query : pystr) (top_k : Z) : M retrieval :=
  let! query_embedding := generate_query_embedding query in
  let! result :=
    EndeeClient.search svc (endee_client self) (index_name self)
      query_embedding top_k true in
  let! chunks := lift (normalize (EndeeClient.results result)) in
  ret (Retrieval chunks (EndeeClient.search_latency_ms result) query).

End Retrieve.

End Retriever.

(* ===================================================================== *)
(** ** rag_pipeline.py *)
(* ===================================================================== *)

Module RAGPipeline.

(** The en dash of the citation format. *)
Definition en_dash : N := 8211%N.
Definition nl : pystr := [10%N].

(** What [generate_answer] returns. *)
Record answer_result : Type := AnswerResult {
  answer : pyval;
  chunks : list pydict;
  retrieval_latency_ms : pyval;
  generation_latency_ms : pyval;
  total_latency_ms : pyval
}.

Definition fallback_answer : pystr :=
  lit "I couldn't find any relevant information to answer your question.".

Definition system_prompt : pystr :=
  lit "You are a helpful assistant that provides accurate answers with citations.".

Section Pipeline.
Variable svc : services.

(** The location part of a citation. *)
Definition location (chunk : pydict) : pystr :=
  if truthy (default VNone (chunk !! "page_number")) then
    lit "page " ++ py_str svc (default VNone (chunk !! "page_number"))
  else if truthy (default VNone (chunk !! "paragraph_index")) then
    lit "para " ++ py_str svc (default VNone (chunk !! "paragraph_index"))
  else
    lit "chunk " ++ py_str svc (default (VInt 0) (chunk !! "chunk_index")).

(** [format_citation(chunk)] *)
Definition format_citation (chunk : pydict) : pystr :=
  let doc_name := default (VStr (lit "Unknown")) (chunk !! "document_name") in
  lit "[" ++ py_str svc doc_name ++ [32%N; en_dash; 32%N]
    ++ location chunk ++ lit "]".

(** The string appended for the chunk numbered [idx]. *)
Definition context_part (idx : Z) (chunk : pydict) : outcome pystr :=
  let citation := format_citation chunk in
  match chunk !! "text" with
  | None => Raise (KeyError "text")
  | Some text =>
      Ret (lit "[" ++ of_int idx ++ lit "] " ++ citation ++ nl
             ++ py_str svc text ++ nl)
  end.

(** [for idx, chunk in enumerate(chunks, 1)], from number [idx] on. *)
Fixpoint context_parts_from (idx : Z) (parts : list pystr)
    (chunks : list pydict) : outcome (list pystr) :=
  match chunks with
  | [] => Ret parts
  | chunk :: rest =>
      obind (context_part idx chunk)
        (fun part => context_parts_from (idx + 1) (parts ++ [part]) rest)
  end.

Definition context_parts (chunks : list pydict) : outcome (list pystr) :=
  context_parts_from 1 [] chunks.

(** The fixed text of the prompt around [context] and [query]. *)
Definition prompt_of (context query : pystr) : pystr :=
  lit "You are a helpful assistant that answers questions based on the provided context."
    ++ nl ++ nl ++ lit "CONTEXT:" ++ nl ++ context ++ nl ++ nl
    ++ lit "INSTRUCTIONS:" ++ nl
    ++ lit "1. Answer the user's question using ONLY the information from the context above" ++ nl
    ++ lit "2. After EACH sentence in your answer, add an inline citation in the format [source_name "
    ++ [en_dash] ++ lit " page/section]" ++ nl
    ++ lit "3. Use the exact citation format shown in the context (e.g., [document.pdf "
    ++ [en_dash] ++ lit " page 5])" ++ nl
    ++ lit "4. If the context doesn't contain enough information to answer, say so clearly" ++ nl
    ++ lit "5. Be concise and accurate" ++ nl ++ nl
    ++ lit "USER QUESTION:" ++ nl ++ query ++ nl ++ nl ++ lit "ANSWER:".

(** [construct_prompt(query, chunks)] *)
Definition construct_prompt (query : pystr) (chunks : list pydict)
    : outcome pystr :=
  obind (context_parts chunks)
    (fun parts => Ret (prompt_of (join nl parts) query)).

(** [generate_answer(query, top_k)] for a pipeline whose retriever
    answers [retrieve] and whose chat model is [llm_model]. *)
Definition generate_answer
    (retrieve : pystr -> Z -> M Retriever.retrieval)
    (llm_model : pystr) (query : pystr) (top_k : Z) : M answer_result :=
  let! total_start := now svc in
  let! retrieval_result := retrieve query top_k in
  let chunks := Retriever.chunks retrieval_result in
  let retrieval_latency := Retriever.retrieval_latency_ms retrieval_result in
  match chunks with
  | [] =>
      let! t := now svc in
      ret (AnswerResult (VStr fallback_answer) [] retrieval_latency
             (VInt 0) (VFloat (float_elapsed_ms svc total_start t)))
  | _ :: _ =>
      let! prompt := lift (construct_prompt query chunks) in
      let! gen_start := now svc in
      let! answer := call_chat svc llm_model system_prompt prompt in
      let! t1 := now svc in
      let generation_latency := float_elapsed_ms svc gen_start t1 in
      let! t2 := now svc in
      let total_latency := float_elapsed_ms svc total_start t2 in
      let! r := lift (py_round2 svc retrieval_latency) in
      ret (AnswerResult answer chunks r
             (VFloat (float_round2 svc generation_latency))
             (VFloat (float_round2 svc total_latency)))
  end.

End Pipeline.

End RAGPipeline.

(* ===================================================================== *)
(** ** utils/pdf_loader.py, utils/docx_loader.py *)
(* ===================================================================== *)

Module Loaders.

(** The loop shared by both loaders: [for num, ... in enumerate(_,
    start=1)], keeping the units that have text; [key] is
    ["page_number"] or ["paragraph_index"]. *)
Fixpoint sections_from (key : string) (filename : pystr) (num : Z)
    (texts : list pystr) : list pydict :=
  match texts with
  | [] => []
  | text :: rest =>
      let tail := sections_from key filename (num + 1) rest in
      if nonempty text && nonempty (strip text)
      then list_to_map [ ("text", VStr (strip text));
                         (key, VInt num);
                         ("document_name", VStr filename) ] :: tail
      else tail
  end.

Section Loader.
Variable svc : services.

(** [load_pdf(file_content, filename)] *)
Definition load_pdf (file_content : list Byte.byte) (filename : pystr)
    : outcome (list pydict) :=
  obind (of_reply (pdf_pages svc file_content))
    (fun pages => Ret (sections_from "page_number" filename 1 pages)).

(** [load_docx(file_content, filename)] *)
Definition load_docx (file_content : list Byte.byte) (filename : pystr)
    : outcome (list pydict) :=
  obind (of_reply (docx_paragraphs svc file_content))
    (fun paragraphs =>
       Ret (sections_from "paragraph_index" filename 1 paragraphs)).

End Loader.

End Loaders.

(* ===================================================================== *)
(** ** ingest.py *)
(* ===================================================================== *)

Module IngestionPipeline.

Record t : Type := Make {
  endee_client : EndeeClient.t;
  index_name : pystr;
  embedding_model : pystr;
  chunk_size : Z;
  chunk_overlap : Z
}.

(** An uploaded file: [(file_content, filename)]. *)
Abbreviation file := (list Byte.byte * pystr)%type.

Definition pystr_eqb (a b : pystr) : bool := bool_decide (a = b).

(** The dictionary returned when ingestion gives up. *)
Definition failure (error : string) : pydict :=
  list_to_map [ ("success", VBool false);
                ("error", VStr (lit error));
                ("chunks_created", VInt 0);
                ("vectors_stored", VInt 0) ].

(** [zip(chunks, embeddings)] *)
Fixpoint zip {A B} (l : list A) (k : list B) : list (A * B) :=
  match l, k with
  | a :: l', b :: k' => (a, b) :: zip l' k'
  | _, _ => []
  end.

Section Pipeline.
Variable svc : services.
Variable self : t.

(** [load_document(file_content, filename)] *)
Definition load_document (file_content : list Byte.byte)
    (filename : pystr) : outcome (list pydict) :=
  let file_ext := last_field 46%N (str_lower svc filename) in
  if pystr_eqb file_ext (lit "pdf") then
    Loaders.load_pdf svc file_content filename
  else if pystr_eqb file_ext (lit "docx") || pystr_eqb file_ext (lit "doc") then
    Loaders.load_docx svc file_content filename
  else
    Raise (ValueError (lit "Unsupported file type: " ++ file_ext)).

(** Step 1, the loop over [files]: [except Exception] passes over a
    file whose loading raises. *)
Fixpoint load_all (all_documents : list pydict) (files : list file)
    : outcome (list pydict) :=
  match files with
  | [] => Ret all_documents
  | (file_content, filename) :: rest =>
      match load_document file_content filename with
      | Ret docs => load_all (all_documents ++ docs) rest
      | Raise _ => load_all all_documents rest
      | NoFuel => NoFuel
      end
  end.

(** [generate_embeddings(texts)] *)
Definition generate_embeddings (texts : list pyval) : M (list embedding) :=
  call_embeddings svc (embedding_model self) texts.

(** [[chunk["text"] for chunk in chunks]] *)
Fixpoint texts_of (chunks : list pydict) : outcome (list pyval) :=
  match chunks with
  | [] => Ret []
  | chunk :: rest =>
      match chunk !! "text" with
      | None => Raise (KeyError "text")
      | Some text => obind (texts_of rest) (fun r => Ret (text :: r))
      end
  end.

(** [f"{chunk.get('document_name', 'unknown')}_{idx}"] *)
Definition chunk_id (chunk : pydict) (idx : Z) : pystr :=
  py_str svc (default (VStr (lit "unknown")) (chunk !! "document_name"))
    ++ lit "_" ++ of_int idx.

(** The metadata stored with a chunk. *)
Definition record_metadata (chunk : pydict) : pydict :=
  let metadata : pydict :=
    list_to_map
      [ ("document_name", default (VStr []) (chunk !! "document_name"));
        ("text", default (VStr []) (chunk !! "text"));
        ("chunk_index", default (VInt 0) (chunk !! "chunk_index")) ] in
  let metadata :=
    match chunk !! "page_number" with
    | Some v => <["page_number" := v]> metadata
    | None => metadata
    end in
  match chunk !! "paragraph_index" with
  | Some v => <["paragraph_index" := v]> metadata
  | None => metadata
  end.

(** Step 4: [for idx, (chunk, embedding) in enumerate(zip(...))],
    from index [idx] on. *)
Fixpoint prepare_from (idx : Z) (pairs : list (pydict * embedding))
    : list vector_record :=
  match pairs with
  | [] => []
  | (chunk, embedding) :: rest =>
      VectorRecord (chunk_id chunk idx) embedding (record_metadata chunk)
        :: prepare_from (idx + 1) rest
  end.

Definition prepare_vectors (chunks : list pydict)
    (embeddings : list embedding) : list vector_record :=
  prepare_from 0 (zip chunks embeddings).

(** [d[key]] *)
Definition getitem (d : pydict) (key : string) : outcome pyval :=
  match d !! key with
  | Some v => Ret v
  | None => Raise (KeyError key)
  end.

(** [ingest_documents(files)] *)
Definition ingest_documents (fuel : nat) (files : list file) : M pydict :=
  let! all_documents := lift (load_all [] files) in
  match all_documents with
  | [] => ret (failure "No documents were successfully loaded")
  | _ :: _ =>
      let! chunks :=
        lift (Chunker.chunk_documents fuel all_documents
                (chunk_size self) (chunk_overlap self)) in
      match chunks with
      | [] => ret (failure "No chunks were created")
      | _ :: _ =>
          let! texts := lift (texts_of chunks) in
          let! embeddings := generate_embeddings texts in
          let vectors := prepare_vectors chunks embeddings in
          let! upsert_result :=
            EndeeClient.insert_documents svc (endee_client self)
              (index_name self) vectors in
          let! count := lift (getitem upsert_result "count") in
          let! elapsed := lift (getitem upsert_result "elapsed_ms") in
          ret (list_to_map
                 [ ("success", VBool true);
                   ("files_processed", VInt (Z.of_nat (length files)));
                   ("chunks_created", VInt (Z.of_nat (length chunks)));
                   ("vectors_stored", count);
                   ("upsert_time_ms", elapsed) ])
      end
  end.

End Pipeline.

End IngestionPipeline.

(* ===================================================================== *)
(** * Vocabulary of the statements *)
(* ===================================================================== *)

Module ChunkerSpec.
Import Chunker.

(** Every chunk in the list was cut from one of the first [n] windows, is
    not blank, and carries its position in the list as index. *)
Definition emitted (text : pystr) (chunk_size chunk_overlap : Z)
    (metadata : option pydict) (cs : list pydict) (n : nat) : Prop :=
  forall i c, cs !! i = Some c ->
    exists k, (k < n)%nat
      /\ nonempty (window text chunk_size
                     (Z.of_nat k * (chunk_size - chunk_overlap))) = true
      /\ c = chunk_data metadata
               (window text chunk_size
                  (Z.of_nat k * (chunk_size - chunk_overlap)))
               (Z.of_nat i).

(** The chunk [c] holds under ["text"] the trimmed slice
    [text[start : start + chunk_size]] of a window, which is neither empty
    nor longer than [chunk_size]. *)
Definition cut_from (text : pystr) (chunk_size chunk_overlap : Z)
    (c : pydict) : Prop :=
  exists (k : nat) (t : pystr),
    let start := Z.of_nat k * (chunk_size - chunk_overlap) in
    c !! "text" = Some (VStr t)
    /\ t = strip (slice text start (start + chunk_size))
    /\ t <> []
    /\ len t <= chunk_size.

(** The chunk indices of a list count up from 0 without gaps. *)
Definition contiguous (cs : list pydict) : Prop :=
  forall i c, cs !! i = Some c -> c !! "chunk_index" = Some (VInt (Z.of_nat i)).

(** The text of the end-to-end example. *)
Definition example_text : pystr := lit "AAAAAAAAAA BBBBBBBBBB CCCCCCCCCC".

(** [{"text": t, "chunk_index": i}] *)
Definition plain_chunk (t : pystr) (i : Z) : pydict :=
  <["text" := VStr t]> (<["chunk_index" := VInt i]> ∅).

End ChunkerSpec.

Module PipelineSpec.
Import RAGPipeline.

(** The value a chunk holds under [key], when it holds one that counts
    as true. *)
Definition set_truthy (chunk : pydict) (key : string) : option pyval :=
  match chunk !! key with
  | Some v => if truthy v then Some v else None
  | None => None
  end.

(** The location of a citation as the specification words it: the page
    number if present and truthy, else the paragraph index if present and
    truthy, else the chunk index. *)
Definition spec_location (svc : services) (chunk : pydict) : pystr :=
  match set_truthy chunk "page_number" with
  | Some n => lit "page " ++ py_str svc n
  | None =>
      match set_truthy chunk "paragraph_index" with
      | Some n => lit "para " ++ py_str svc n
      | None =>
          lit "chunk " ++ py_str svc (default (VInt 0) (chunk !! "chunk_index"))
      end
  end.

(** The context block numbered [i]: ["[i] {citation}\n{text}\n"]. *)
Definition block (svc : services) (i : Z) (chunk : pydict) : pystr :=
  lit "[" ++ of_int i ++ lit "] " ++ format_citation svc chunk ++ nl
    ++ py_str svc (default VNone (chunk !! "text")) ++ nl.

(** The context blocks of a chunk list, numbered from [i] in list order. *)
Fixpoint blocks_from (svc : services) (i : Z) (chunks : list pydict)
    : list pystr :=
  match chunks with
  | [] => []
  | chunk :: rest => block svc i chunk :: blocks_from svc (i + 1) rest
  end.

(** The metadata entry of a hit is absent or a JSON object. *)
Definition metadata_ok (item : hit) : Prop :=
  match hit_metadata item with
  | Some (MetaOther _) => False
  | _ => True
  end.

(** The metadata of such a hit, as a dictionary. *)
Definition metadata_dict (item : hit) : pydict :=
  match hit_metadata item with
  | Some (MetaDict d) => d
  | _ => ∅
  end.

(** The document name an id is built from. *)
Definition name_of (svc : services) (chunk : pydict) : pystr :=
  py_str svc (default (VStr (lit "unknown")) (chunk !! "document_name")).

(** The ids of a batch, by position in the batch: ["{name}_{i}"]. *)
Fixpoint ids_from (svc : services) (i : Z) (chunks : list pydict)
    : list pystr :=
  match chunks with
  | [] => []
  | chunk :: rest =>
      (name_of svc chunk ++ lit "_" ++ of_int i) :: ids_from svc (i + 1) rest
  end.

(** The per-document emission index of the chunk at position [i]: how
    many chunks of the same document come before it in the batch. *)
Definition per_document_index (chunks : list pydict) (i : nat) : Z :=
  match chunks !! i with
  | None => 0
  | Some c =>
      Z.of_nat (length (filter
        (fun c' : pydict =>
           c' !! "document_name" = c !! "document_name")
        (take i chunks)))
  end.

(** Five hits whose scores are out of order. *)
Definition five_hits : list hit :=
  (fun '(name, score) =>
     Hit (Some (VStr (lit name))) (Some (VInt score))
       (Some (MetaDict (list_to_map [ ("text", VStr (lit name));
                                      ("document_name", VStr (lit "d")) ]))))
  <$> [ ("e", 3); ("d", 9); ("c", 1); ("b", 7); ("a", 5) ].

(** Hits with parts missing: no metadata at all, an empty metadata
    object, and neither id nor score. *)
Definition bare_hits : list hit :=
  [ Hit (Some (VStr (lit "v1"))) (Some (VFloat 4602678819172646912)) None;
    Hit (Some (VStr (lit "v2"))) (Some (VInt 2)) (Some (MetaDict ∅));
    Hit None None (Some (MetaDict {[ "text" := VStr (lit "t") ]})) ].

(** A retriever for the examples. *)
Definition demo_retriever : Retriever.t :=
  Retriever.Make (EndeeClient.Client (lit "http://localhost:8080"))
    (lit "rag_documents") (lit "text-embedding-3-small").

(** The event is a call of the chat model. *)
Definition is_chat (ev : event) : bool :=
  match ev with
  | EvChat _ _ _ => true
  | _ => false
  end.

(** Two one-page documents, and the second of them alone. *)
Definition page_of (name : string) (text : string) : pydict :=
  list_to_map [ ("text", VStr (lit text)); ("page_number", VInt 1);
                ("document_name", VStr (lit name)) ].

Definition two_documents : list pydict :=
  [ page_of "a.pdf" "alpha"; page_of "b.pdf" "beta" ].

Definition second_document : list pydict := [ page_of "b.pdf" "beta" ].

(** Ingestion pipelines for the examples: the default window, and a
    window of size 0 that moves by one character. *)
Definition demo_pipeline : IngestionPipeline.t :=
  IngestionPipeline.Make (EndeeClient.Client (lit "http://localhost:8080"))
    (lit "rag_documents") (lit "text-embedding-3-small") 500 50.

Definition zero_window_pipeline : IngestionPipeline.t :=
  IngestionPipeline.Make (EndeeClient.Client (lit "http://localhost:8080"))
    (lit "rag_documents") (lit "text-embedding-3-small") 0 (-1).

(** The world after one more reading of the clock. *)
Definition tick (w : world) : world := World (S (clock_reads w)) (calls w).

(** The sections of the files that load, in file order; a file whose
    loading raises contributes none. *)
Definition loaded (svc : services) (files : list IngestionPipeline.file)
    : list pydict :=
  flat_map
    (fun f : IngestionPipeline.file =>
       match IngestionPipeline.load_document svc (fst f) (snd f) with
       | Ret docs => docs
       | _ => []
       end)
    files.

(** Services for the examples: the clock counts its readings, floats
    print as ["<float>"] and are left as they are by the arithmetic,
    [lower] maps [A-Z] to [a-z], one embedding per text, the store answers
    with the JSON object [{"count": 1}], the model answers ["ok"], a PDF
    has one page per byte, and a DOCX cannot be read. *)
Definition demo_lower (s : pystr) : pystr :=
  (fun c => if (65 <=? c)%N && (c <=? 90)%N then (c + 32)%N else c) <$> s.

Definition demo_services : services :=
  {| time_time := fun n => Z.of_nat n;
     float_elapsed_ms := fun t0 t1 => t1 - t0;
     float_round2 := fun x => x;
     float_repr := fun _ => lit "<float>";
     str_lower := demo_lower;
     embeddings_create := fun _ _ input => Reply ((fun _ => [0]) <$> input);
     session_post := fun _ _ _ =>
       Reply (Response (Reply (JsonBody {[ "count" := VInt 1 ]} None)));
     chat_create := fun _ _ _ _ => Reply (VStr (lit "ok"));
     pdf_pages := fun bytes =>
       Reply ((fun b => [Byte.to_N b]) <$> bytes);
     docx_paragraphs := fun _ => Fails (ExternalError "docx") |}.

(** Three hits of which the second has the JSON value [null] as its
    metadata: [{"id": "b", "score": 8, "metadata": null}]. *)
Definition null_metadata_hits : list hit :=
  [ Hit (Some (VStr (lit "a"))) (Some (VInt 9))
      (Some (MetaDict {[ "text" := VStr (lit "first") ]}));
    Hit (Some (VStr (lit "b"))) (Some (VInt 8)) (Some (MetaOther VNone));
    Hit (Some (VStr (lit "c"))) (Some (VInt 7))
      (Some (MetaDict {[ "text" := VStr (lit "third") ]})) ].

(** The services of the examples, with a store that answers every post
    with [{"results": hits}]. *)
Definition store_answering (hits : list hit) : services :=
  {| time_time := time_time demo_services;
     float_elapsed_ms := float_elapsed_ms demo_services;
     float_round2 := float_round2 demo_services;
     float_repr := float_repr demo_services;
     str_lower := str_lower demo_services;
     embeddings_create := embeddings_create demo_services;
     session_post := fun _ _ _ =>
       Reply (Response (Reply (JsonBody ∅ (Some hits))));
     chat_create := chat_create demo_services;
     pdf_pages := pdf_pages demo_services;
     docx_paragraphs := docx_paragraphs demo_services |}.

End PipelineSpec.

Module ExtraSpec.

(** What one document contributes to the result of [chunk_documents]:
    the chunks of its text, with its other entries as metadata. *)
Definition chunks_of (fuel : nat) (chunk_size chunk_overlap : Z)
    (doc : pydict) : outcome (list pydict) :=
  Chunker.chunk_text_value (default (VStr []) (doc !! "text"))
    chunk_size chunk_overlap (Some (delete "text" doc)) fuel.

(** The section a loader builds for the unit numbered [num] whose
    trimmed text is [text]; [key] is ["page_number"] or
    ["paragraph_index"]. *)
Definition section_of (key : string) (filename : pystr) (num : Z)
    (text : pystr) : pydict :=
  list_to_map [ ("text", VStr text); (key, VInt num);
                ("document_name", VStr filename) ].

(** The sections are exactly those of the units that have text once
    trimmed, each holding the trimmed text and the 1-based place of its
    unit, and they come in the order of the units. *)
Definition numbered (key : string) (filename : pystr) (texts : list pystr)
    (sections : list pydict) : Prop :=
  (forall d,
     d ∈ sections
     <-> exists (i : nat) t,
           texts !! i = Some t /\ strip t <> []
           /\ d = section_of key filename (1 + Z.of_nat i) (strip t))
  /\ (forall (a b : nat) da db,
        (a < b)%nat ->
        sections !! a = Some da -> sections !! b = Some db ->
        exists (i j : nat) ti tj,
          (i < j)%nat /\ texts !! i = Some ti /\ texts !! j = Some tj
          /\ da = section_of key filename (1 + Z.of_nat i) (strip ti)
          /\ db = section_of key filename (1 + Z.of_nat j) (strip tj)).


(** The call [retrieve] makes to the embedding model. *)
Definition query_embedding_call (self : Retriever.t) (query : pystr) : event :=
  EvEmbeddings (Retriever.embedding_model self) [VStr query].

(** The chunk has an entry under ["text"]. *)
Definition has_text (chunk : pydict) : Prop := is_Some (chunk !! "text").

(** The address [insert_documents] posts to. *)
Definition vectors_url (self : IngestionPipeline.t) : pystr :=
  EndeeClient.base_url (IngestionPipeline.endee_client self)
    ++ lit "/indexes/" ++ IngestionPipeline.index_name self
    ++ lit "/vectors".

(** The texts of a chunk list, in order. *)
Definition texts_list (chunks : list pydict) : list pyval :=
  (fun c : pydict => default VNone (c !! "text")) <$> chunks.

(** The dictionary returned when ingestion succeeds. *)
Definition success (files chunks : nat) (stored elapsed : pyval) : pydict :=
  list_to_map [ ("success", VBool true);
                ("files_processed", VInt (Z.of_nat files));
                ("chunks_created", VInt (Z.of_nat chunks));
                ("vectors_stored", stored);
                ("upsert_time_ms", elapsed) ].

(** Two files for the examples, one of a kind that is not read and a
    PDF of one page; the chunk the PDF gives; and the answer of the store
    of the examples. *)
Definition demo_files : list IngestionPipeline.file :=
  [ ([], lit "notes.txt"); ([Byte.x68], lit "A.PDF") ].

Definition demo_chunk : pydict :=
  Chunker.chunk_data
    (Some (delete "text" (section_of "page_number" (lit "A.PDF") 1 (lit "h"))))
    (lit "h") 0.

Definition demo_body : json_body := JsonBody {[ "count" := VInt 1 ]} None.

(** The three extensions [load_document] accepts. *)
Definition pdf_ext : pystr := lit "pdf".
Definition docx_ext : pystr := lit "docx".
Definition doc_ext : pystr := lit "doc".

End ExtraSpec.

(* ===================================================================== *)
(** * Properties *)
(* ===================================================================== *)

(** ** Strings *)

Module PyStrFacts.

Lemma lstrip_length s : (length (lstrip s) <= length s)%nat.
Proof.
  induction s as [|c r IH]; simpl; [lia|].
  destruct (isspace c); simpl; lia.
Qed.

Lemma strip_length s : (length (strip s) <= length s)%nat.
Proof.
  unfold strip, rstrip. rewrite length_rev.
  etransitivity; [apply lstrip_length|]. rewrite length_rev.
  apply lstrip_length.
Qed.

Lemma slice_length s a b : 0 < b -> len (slice s a (a + b)) <= b.
Proof.
  intros Hb. unfold slice, len. rewrite length_take, length_drop.
  unfold clip, len.
  destruct (a <? 0) eqn:Ha, (a + b <? 0) eqn:Hab; lia.
Qed.

Lemma nonempty_true s : nonempty s = true <-> s <> [].
Proof. destruct s; simpl; split; congruence. Qed.

End PyStrFacts.

(** ** The chunker *)

Module ChunkerFacts.
Import Chunker ChunkerSpec PyStrFacts.

Section Loop.
Variable text : pystr.
Variable chunk_size chunk_overlap : Z.
Variable metadata : option pydict.

Local Abbreviation pass := (pass text chunk_size chunk_overlap metadata).
Local Abbreviation passes := (passes text chunk_size chunk_overlap metadata).
Local Abbreviation loop := (loop text chunk_size chunk_overlap metadata).
Local Abbreviation loop_body :=
  (loop_body text chunk_size chunk_overlap metadata).
Local Abbreviation window := (window text chunk_size).
Local Abbreviation chunk_data := (chunk_data metadata).
Local Abbreviation step := (chunk_size - chunk_overlap).

Lemma pass_eq st :
  pass st =
  if nonempty (window (start st))
  then LoopState (start st + chunk_size - chunk_overlap)
         (chunk_index st + 1)
         (chunks st ++ [chunk_data (window (start st)) (chunk_index st)])
  else LoopState (start st + chunk_size - chunk_overlap)
         (chunk_index st) (chunks st).
Proof.
  unfold Chunker.pass, Chunker.loop_body.
  destruct (nonempty _); reflexivity.
Qed.

Lemma pass_start st : start (pass st) = start st + step.
Proof. rewrite pass_eq. destruct (nonempty _); simpl; lia. Qed.

Lemma go_on_eq st :
  snd (loop_body st) = negb (len text <=? start (pass st)).
Proof.
  rewrite pass_start. unfold Chunker.loop_body.
  destruct (nonempty _); simpl; f_equal; f_equal; lia.
Qed.

Lemma passes_S n st : passes (S n) st = pass (passes n st).
Proof. revert st. induction n as [|n IH]; intros st; [reflexivity|].
  change (passes (S (S n)) st) with (passes (S n) (pass st)).
  rewrite IH. reflexivity.
Qed.

Lemma passes_start n st :
  start (passes n st) = start st + Z.of_nat n * step.
Proof.
  induction n as [|n IH]; [simpl; lia|].
  rewrite passes_S, pass_start, IH. lia.
Qed.

(** The loop, one unfolding. *)
Lemma loop_eq fuel st :
  loop fuel st =
  if start st <? len text then
    match fuel with
    | O => NoFuel
    | S fuel' =>
        if negb (len text <=? start (pass st))
        then obind (loop fuel' (pass st)) (fun '(r, n) => Ret (r, S n))
        else Ret (pass st, 1%nat)
    end
  else Ret (st, 0%nat).
Proof.
  rewrite <- go_on_eq. unfold Chunker.pass.
  destruct fuel; simpl; destruct (loop_body st); reflexivity.
Qed.

(** What a finished run of the loop tells: it made exactly [n] passes,
    the cursor was inside the text before each of them and is outside
    after the last, and [n] units of fuel are what it takes. *)
Lemma loop_ret fuel st st' n :
  loop fuel st = Ret (st', n) ->
  st' = passes n st
  /\ (forall k, (k < n)%nat -> start (passes k st) < len text)
  /\ len text <= start (passes n st)
  /\ loop n st = Ret (st', n).
Proof.
  revert st st' n. induction fuel as [|fuel IH]; intros st st' n.
  - rewrite loop_eq. destruct (start st <? len text) eqn:Hlt; [discriminate|].
    intros [= <- <-]. rewrite loop_eq, Hlt. simpl.
    repeat split; [lia | lia].
  - rewrite loop_eq. destruct (start st <? len text) eqn:Hlt.
    + destruct (len text <=? start (pass st)) eqn:Hout; simpl.
      * intros [= <- <-].
        repeat split; [| simpl; lia |].
        -- intros k Hk. assert (k = 0%nat) as -> by lia. simpl. lia.
        -- rewrite loop_eq, Hlt, Hout. reflexivity.
      * destruct (loop fuel (pass st)) as [[r m]| |] eqn:Hrec;
          simpl; try discriminate.
        intros [= <- <-].
        destruct (IH _ _ _ Hrec) as (-> & Hin & Hend & Hn).
        repeat split; [| exact Hend |].
        -- intros [|k] Hk; [simpl; lia|]. apply Hin. lia.
        -- rewrite loop_eq, Hlt, Hout. simpl. rewrite Hn. reflexivity.
    + intros [= <- <-]. rewrite loop_eq, Hlt. simpl.
      repeat split; [lia | lia].
Qed.

(** More fuel does not change the answer. *)
Lemma loop_mono fuel fuel' st r :
  loop fuel st = Ret r -> (fuel <= fuel')%nat -> loop fuel' st = Ret r.
Proof.
  revert fuel' st r. induction fuel as [|fuel IH]; intros fuel' st r.
  - rewrite !loop_eq. destruct (start st <? len text); [discriminate|].
    intros H _. exact H.
  - rewrite loop_eq. intros H Hle.
    destruct fuel' as [|fuel']; [lia|]. rewrite loop_eq.
    destruct (start st <? len text); [|exact H].
    destruct (negb (len text <=? start (pass st))); [|exact H].
    destruct (loop fuel (pass st)) as [p| |] eqn:Hrec; try discriminate.
    rewrite (IH fuel' _ p Hrec) by lia. exact H.
Qed.

(** With less fuel than passes to make, the loop does not finish. *)
Lemma loop_short fuel st st' n :
  loop n st = Ret (st', n) -> (fuel < n)%nat -> loop fuel st = NoFuel.
Proof.
  revert fuel st st'. induction n as [|n IH]; intros fuel st st' H Hlt; [lia|].
  rewrite loop_eq in H. rewrite loop_eq.
  destruct (start st <? len text); [|discriminate].
  destruct fuel as [|fuel]; [reflexivity|].
  destruct (negb (len text <=? start (pass st))).
  - destruct (loop n (pass st)) as [[r m]| |] eqn:Hrec; try discriminate.
    simpl in H. injection H as <- <-.
    rewrite (IH fuel _ _ Hrec) by lia. reflexivity.
  - injection H as _ <-. lia.
Qed.

(** When the cursor advances, fuel for the distance left is enough. *)
Lemma loop_enough fuel st :
  0 < step ->
  len text - start st <= Z.of_nat fuel * step ->
  exists r, loop fuel st = Ret r.
Proof.
  intros Hstep. revert st. induction fuel as [|fuel IH]; intros st Hfuel.
  - rewrite loop_eq. destruct (start st <? len text) eqn:Hlt; [lia|eauto].
  - rewrite loop_eq. destruct (start st <? len text) eqn:Hlt; [|eauto].
    destruct (negb (len text <=? start (pass st))); [|eauto].
    destruct (IH (pass st)) as [[r m] ->]; [rewrite pass_start; lia|].
    simpl. eauto.
Qed.

(** The number of passes of a run that starts at the beginning. *)
Lemma loop_passes_bound fuel st' n :
  0 < step ->
  loop fuel (init) = Ret (st', n) ->
  Z.of_nat n <= ceil_div (len text) step.
Proof.
  intros Hstep H. apply loop_ret in H as (_ & Hin & _ & _).
  unfold ceil_div. apply Z.div_le_lower_bound; [lia|].
  destruct n as [|n].
  - unfold len. lia.
  - specialize (Hin n ltac:(lia)). rewrite passes_start in Hin.
    simpl in Hin. lia.
Qed.

Lemma passes_emitted n :
  chunk_index (passes n init) = Z.of_nat (length (chunks (passes n init)))
  /\ emitted text chunk_size chunk_overlap metadata
       (chunks (passes n init)) n.
Proof.
  induction n as [|n [IHidx IHem]].
  - split; [reflexivity|]. intros i c H. destruct i; discriminate.
  - rewrite passes_S, pass_eq.
    assert (start (passes n init) = Z.of_nat n * step) as Hs
      by (rewrite passes_start; simpl; lia).
    destruct (nonempty (window (start (passes n init)))) eqn:Hne; simpl.
    + split; [rewrite length_app; simpl; lia|].
      intros i c H. apply lookup_app_Some in H as [H|[Hge H]].
      * destruct (IHem i c H) as (k & Hk & Hw & ->). exists k.
        repeat split; [lia | exact Hw].
      * apply list_lookup_singleton_Some in H as [Hi <-].
        exists n. rewrite <- Hs. repeat split; [lia | exact Hne |].
        f_equal. lia.
    + split; [exact IHidx|]. intros i c H.
      destruct (IHem i c H) as (k & Hk & Hw & ->). exists k.
      repeat split; [lia | exact Hw].
Qed.

End Loop.

Section Results.
Variable text : pystr.
Variable chunk_size chunk_overlap : Z.
Variable metadata : option pydict.

Local Abbreviation chunk_text_passes :=
  (chunk_text_passes text chunk_size chunk_overlap metadata).
Local Abbreviation chunk_text :=
  (chunk_text text chunk_size chunk_overlap metadata).
Local Abbreviation passes := (passes text chunk_size chunk_overlap metadata).
Local Abbreviation step := (chunk_size - chunk_overlap).

Lemma ceil_div_nonneg a b : 0 <= a -> 0 < b -> 0 <= ceil_div a b.
Proof. intros. unfold ceil_div. apply Z.div_pos; lia. Qed.

Lemma chunk_text_of_passes fuel cs n :
  chunk_text_passes fuel = Ret (cs, n) -> chunk_text fuel = Ret cs.
Proof. unfold Chunker.chunk_text. intros ->. reflexivity. Qed.

Lemma chunk_text_inv fuel cs :
  chunk_text fuel = Ret cs -> exists n, chunk_text_passes fuel = Ret (cs, n).
Proof.
  unfold Chunker.chunk_text.
  destruct (chunk_text_passes fuel) as [[cs' n]| |]; simpl; try discriminate.
  intros [= <-]. eauto.
Qed.

(** The list returned is the list held after some number of passes. *)
Lemma chunk_text_passes_inv fuel cs n :
  chunk_text_passes fuel = Ret (cs, n) -> exists m, cs = chunks (passes m init).
Proof.
  unfold Chunker.chunk_text_passes.
  destruct (_ || _).
  - intros [= <- <-]. exists 0%nat. reflexivity.
  - destruct (loop text chunk_size chunk_overlap metadata fuel init)
      as [[st m]| |] eqn:Hl; simpl; try discriminate.
    intros [= <- <-]. apply loop_ret in Hl as (-> & _). eauto.
Qed.

(** For a window longer than its overlap the run ends, and the number
    of passes it takes is fixed by the arguments. *)
Lemma chunk_text_passes_total :
  0 <= chunk_overlap < chunk_size ->
  exists cs n,
    Z.of_nat n <= ceil_div (len text) step
    /\ (forall fuel, (n <= fuel)%nat -> chunk_text_passes fuel = Ret (cs, n))
    /\ (forall fuel, (fuel < n)%nat -> chunk_text_passes fuel = NoFuel).
Proof.
  intros Hvalid. unfold Chunker.chunk_text_passes.
  destruct (_ || _).
  - exists [], 0%nat. repeat split; [|lia].
    apply ceil_div_nonneg; unfold len; lia.
  - destruct (loop_enough text chunk_size chunk_overlap metadata
                (Z.to_nat (len text)) init) as [[st n] Hl];
      [lia | unfold len; rewrite Nat2Z.id; simpl; nia |].
    assert (0 < step) as Hstep by lia.
    pose proof (loop_passes_bound _ _ _ _ _ _ _ Hstep Hl) as Hb.
    apply loop_ret in Hl as (_ & _ & _ & Hn).
    exists (chunks st), n. repeat split; [exact Hb | |].
    + intros fuel Hf. rewrite (loop_mono _ _ _ _ _ _ _ _ Hn Hf). reflexivity.
    + intros fuel Hf. rewrite (loop_short _ _ _ _ _ _ _ _ Hn Hf). reflexivity.
Qed.

Lemma chunk_data_index w i :
  default ∅ metadata !! "chunk_index" = None ->
  chunk_data metadata w i !! "chunk_index" = Some (VInt i).
Proof.
  intros H. unfold chunk_data. rewrite lookup_union_r by exact H.
  rewrite lookup_insert_ne by discriminate. apply lookup_insert_eq.
Qed.

Lemma chunk_data_text w i :
  default ∅ metadata !! "text" = None ->
  chunk_data metadata w i !! "text" = Some (VStr w).
Proof.
  intros H. unfold chunk_data. rewrite lookup_union_r by exact H.
  apply lookup_insert_eq.
Qed.

Lemma window_length s :
  0 < chunk_size -> len (window text chunk_size s) <= chunk_size.
Proof.
  intros H. unfold window.
  pose proof (strip_length (slice text s (s + chunk_size))).
  pose proof (slice_length text s chunk_size H). unfold len in *. lia.
Qed.

End Results.

End ChunkerFacts.

Module ChunkerClaims.
Import Chunker ChunkerSpec PyStrFacts ChunkerFacts.

(** [C2] For every text and every window size and overlap with
    [0 <= overlap < window_size], [chunk_text] terminates: its loop makes
    a number [n] of passes that is at most
    [ceil(len(text) / (window_size - overlap))].  Any fuel from [n] on
    gives the same list, and less fuel than [n] is not enough, so [n] is
    the number of passes the loop makes. *)
Theorem chunk_text_terminates (text : pystr) (window_size overlap : Z)
    (metadata : option pydict) :
  0 <= overlap < window_size ->
  exists (cs : list pydict) (n : nat),
    Z.of_nat n <= ceil_div (len text) (window_size - overlap)
    /\ (forall fuel, (n <= fuel)%nat ->
          chunk_text_passes text window_size overlap metadata fuel
          = Ret (cs, n))
    /\ (forall fuel, (fuel < n)%nat ->
          chunk_text_passes text window_size overlap metadata fuel = NoFuel)
    /\ (forall fuel, (n <= fuel)%nat ->
          chunk_text text window_size overlap metadata fuel = Ret cs).
Proof.
  intros Hvalid.
  destruct (chunk_text_passes_total text window_size overlap metadata Hvalid)
    as (cs & n & Hbound & Hret & Hshort).
  exists cs, n. repeat split; try assumption.
  intros fuel Hf. eapply chunk_text_of_passes, Hret, Hf.
Qed.

(** The termination theorem at the example text with a window of 10 and
    an overlap of 9. *)
Lemma chunk_text_terminates_witness :
  exists (cs : list pydict) (n : nat),
    Z.of_nat n <= ceil_div (len example_text) (10 - 9)
    /\ (forall fuel, (n <= fuel)%nat ->
          chunk_text_passes example_text 10 9 None fuel = Ret (cs, n))
    /\ (forall fuel, (fuel < n)%nat ->
          chunk_text_passes example_text 10 9 None fuel = NoFuel)
    /\ (forall fuel, (n <= fuel)%nat ->
          chunk_text example_text 10 9 None fuel = Ret cs).
Proof. apply (chunk_text_terminates example_text 10 9 None). lia. Defined.

(** The run of the example takes four passes and gives four chunks. *)
Lemma example_run fuel :
  chunk_text_passes example_text 15 5 None (4 + fuel)
  = Ret ([ plain_chunk (lit "AAAAAAAAAA BBBB") 0;
           plain_chunk (lit "BBBBBBBBBB CCC") 1;
           plain_chunk (lit "B CCCCCCCCCC") 2;
           plain_chunk (lit "CC") 3 ], 4%nat).
Proof.
  destruct (chunk_text_passes_total example_text 15 5 None ltac:(lia))
    as (cs & n & _ & Hret & Hshort).
  assert (chunk_text_passes example_text 15 5 None 4
          = Ret ([ plain_chunk (lit "AAAAAAAAAA BBBB") 0;
                   plain_chunk (lit "BBBBBBBBBB CCC") 1;
                   plain_chunk (lit "B CCCCCCCCCC") 2;
                   plain_chunk (lit "CC") 3 ], 4%nat)) as H4
    by compute_done.
  destruct (le_lt_dec n 4) as [Hle|Hgt].
  - rewrite (Hret (4 + fuel)%nat) by lia. rewrite <- (Hret 4%nat Hle).
    exact H4.
  - rewrite (Hshort 4%nat Hgt) in H4. discriminate.
Qed.

Lemma example_short fuel :
  (fuel < 4)%nat -> chunk_text example_text 15 5 None fuel = NoFuel.
Proof.
  intros H.
  destruct fuel as [|[|[|[|fuel]]]]; try lia; vm_compute; reflexivity.
Qed.

(** [C3] (as amended) On the 32-character text of the example with
    [window_size = 15] and [overlap = 5], [chunk_text] makes four passes
    and emits four chunks, cut from the windows [0,15), [10,25), [20,32)
    and [30,32) and trimmed, with [chunk_index] 0, 1, 2 and 3: the cursor
    stands at 30, inside the text, after the third window. *)
Theorem example_four_chunks (fuel : nat) :
  len example_text = 32
  /\ chunk_text example_text 15 5 None (4 + fuel)
     = Ret [ plain_chunk (strip (slice example_text 0 15)) 0;
             plain_chunk (strip (slice example_text 10 25)) 1;
             plain_chunk (strip (slice example_text 20 32)) 2;
             plain_chunk (strip (slice example_text 30 32)) 3 ]
  /\ [ strip (slice example_text 0 15); strip (slice example_text 10 25);
       strip (slice example_text 20 32); strip (slice example_text 30 32) ]
     = [ lit "AAAAAAAAAA BBBB"; lit "BBBBBBBBBB CCC"; lit "B CCCCCCCCCC";
         lit "CC" ].
Proof.
  split; [reflexivity|]. split; [|compute_done].
  rewrite (chunk_text_of_passes _ _ _ _ _ _ _ (example_run fuel)).
  compute_done.
Qed.

(** [C3] (refuted as stated) On the example [chunk_text] returns four
    chunks, the last one being ["CC"] with [chunk_index] 3, and no run of
    it returns exactly three. *)
Lemma example_not_three_chunks :
  exists cs,
    chunk_text example_text 15 5 None 4 = Ret cs
    /\ length cs = 4%nat
    /\ cs !! 3%nat = Some (plain_chunk (lit "CC") 3)
    /\ ~ (exists fuel cs',
            chunk_text example_text 15 5 None fuel = Ret cs'
            /\ length cs' = 3%nat).
Proof.
  exists [ plain_chunk (lit "AAAAAAAAAA BBBB") 0;
           plain_chunk (lit "BBBBBBBBBB CCC") 1;
           plain_chunk (lit "B CCCCCCCCCC") 2;
           plain_chunk (lit "CC") 3 ].
  split; [compute_done|]. split; [reflexivity|]. split; [reflexivity|].
  intros (fuel & cs & Hrun & Hlen).
  destruct (le_lt_dec 4 fuel) as [Hle|Hlt].
  - replace fuel with (4 + (fuel - 4))%nat in Hrun by lia.
    rewrite (chunk_text_of_passes _ _ _ _ _ _ _ (example_run (fuel - 4)))
      in Hrun.
    injection Hrun as <-. discriminate.
  - rewrite (example_short fuel Hlt) in Hrun. discriminate.
Qed.

(** Every list [chunk_text] returns was built by some number of passes
    from the empty list. *)
Lemma chunk_text_emitted text chunk_size chunk_overlap metadata fuel cs :
  chunk_text text chunk_size chunk_overlap metadata fuel = Ret cs ->
  exists n, emitted text chunk_size chunk_overlap metadata cs n.
Proof.
  intros H. apply chunk_text_inv in H as [n H].
  apply chunk_text_passes_inv in H as [m ->].
  exists m. apply passes_emitted.
Qed.

(** [C8] (as amended) For every text, every window size and overlap with
    [0 <= overlap < window_size], and every metadata that has no entry
    under ["chunk_index"], [chunk_text] returns a list whose [chunk_index]
    values are 0, 1, 2, ... in the order of emission.  A pass over a window
    that is empty once trimmed moves the cursor by
    [window_size - overlap] and leaves both the list and the next index as
    they were. *)
Theorem chunk_index_contiguous (text : pystr) (window_size overlap : Z)
    (metadata : option pydict) :
  0 <= overlap < window_size ->
  default ∅ metadata !! "chunk_index" = None ->
  (exists (cs : list pydict) (n : nat),
     (forall fuel, (n <= fuel)%nat ->
        chunk_text text window_size overlap metadata fuel = Ret cs)
     /\ contiguous cs)
  /\ (forall st,
        nonempty (window text window_size (start st)) = false ->
        pass text window_size overlap metadata st
        = LoopState (start st + window_size - overlap)
            (chunk_index st) (chunks st)).
Proof.
  intros Hvalid Hmd. split.
  - destruct (chunk_text_passes_total text window_size overlap metadata Hvalid)
      as (cs & n & _ & Hret & _).
    exists cs, n. split.
    + intros fuel Hf. eapply chunk_text_of_passes, Hret, Hf.
    + destruct (chunk_text_emitted text window_size overlap metadata n cs)
        as [m Hem];
        [eapply chunk_text_of_passes, Hret; lia|].
      intros i c Hc. destruct (Hem i c Hc) as (k & _ & _ & ->).
      apply chunk_data_index, Hmd.
  - intros st Hblank. rewrite pass_eq, Hblank. reflexivity.
Qed.

(** The theorem at a text with blank windows and the metadata of a PDF
    section. *)
Lemma chunk_index_contiguous_witness :
  (exists (cs : list pydict) (n : nat),
     (forall fuel, (n <= fuel)%nat ->
        chunk_text (lit "ab      cd") 2 0
          (Some {[ "document_name" := VStr (lit "a.pdf") ]}) fuel = Ret cs)
     /\ contiguous cs)
  /\ (forall st,
        nonempty (window (lit "ab      cd") 2 (start st)) = false ->
        pass (lit "ab      cd") 2 0
          (Some {[ "document_name" := VStr (lit "a.pdf") ]}) st
        = LoopState (start st + 2 - 0) (chunk_index st) (chunks st)).
Proof.
  apply (chunk_index_contiguous (lit "ab      cd") 2 0
           (Some {[ "document_name" := VStr (lit "a.pdf") ]}));
    [lia | compute_done].
Defined.

(** A run in which three blank windows are passed over: the two chunks
    emitted around them are numbered 0 and 1. *)
Lemma blank_windows_skipped :
  chunk_text (lit "ab      cd") 2 0 None 5
  = Ret [ plain_chunk (lit "ab") 0; plain_chunk (lit "cd") 1 ].
Proof. compute_done. Qed.

(** [C8] (refuted as stated) With metadata that itself has an entry under
    ["chunk_index"], every chunk carries that entry: here the three chunks
    emitted all have [chunk_index] 7. *)
Lemma chunk_index_overridden :
  exists cs,
    chunk_text (lit "ab cd") 3 1 (Some {[ "chunk_index" := VInt 7 ]}) 3
    = Ret cs
    /\ (fun c : pydict => c !! "chunk_index") <$> cs
       = [ Some (VInt 7); Some (VInt 7); Some (VInt 7) ]
    /\ ~ contiguous cs.
Proof.
  exists ((fun t => <["chunk_index" := VInt 7]> (plain_chunk (lit t) 7))
            <$> [ "ab"; "cd"; "d" ]).
  split; [compute_done|]. split; [compute_done|].
  intros H. specialize (H 0%nat _ eq_refl).
  rewrite lookup_insert_eq in H. discriminate.
Qed.

(** [C10] (as amended) For every text, every [chunk_size > 0], every
    overlap, and every metadata that has no entry under ["text"]: each
    chunk in the list after any number of passes of the loop, and so each
    chunk of a list [chunk_text] returns, holds under ["text"] the trimmed
    slice [text[start : start + chunk_size]] of its window, which is not
    empty and has at most [chunk_size] characters. *)
Theorem chunk_text_bounded (text : pystr) (chunk_size chunk_overlap : Z)
    (metadata : option pydict) :
  0 < chunk_size ->
  default ∅ metadata !! "text" = None ->
  (forall n c,
     c ∈ chunks (passes text chunk_size chunk_overlap metadata n init) ->
     cut_from text chunk_size chunk_overlap c)
  /\ (forall fuel cs c,
        chunk_text text chunk_size chunk_overlap metadata fuel = Ret cs ->
        c ∈ cs -> cut_from text chunk_size chunk_overlap c).
Proof.
  intros Hsize Hmd.
  assert (forall n cs c,
            emitted text chunk_size chunk_overlap metadata cs n ->
            c ∈ cs -> cut_from text chunk_size chunk_overlap c) as Hcut.
  { intros n cs c Hem Hin. apply list_elem_of_lookup in Hin as [i Hi].
    destruct (Hem i c Hi) as (k & _ & Hne & ->).
    exists k, (window text chunk_size
                 (Z.of_nat k * (chunk_size - chunk_overlap))).
    cbv zeta. repeat split.
    - apply chunk_data_text, Hmd.
    - apply nonempty_true, Hne.
    - apply window_length, Hsize. }
  split.
  - intros n c. apply (Hcut n). apply passes_emitted.
  - intros fuel cs c Hrun.
    destruct (chunk_text_emitted _ _ _ _ _ _ Hrun) as [n Hem].
    apply (Hcut n), Hem.
Qed.

(** The theorem at the example text. *)
Lemma chunk_text_bounded_witness :
  (forall n c,
     c ∈ chunks (passes example_text 15 5 None n init) ->
     cut_from example_text 15 5 c)
  /\ (forall fuel cs c,
        chunk_text example_text 15 5 None fuel = Ret cs ->
        c ∈ cs -> cut_from example_text 15 5 c).
Proof.
  apply (chunk_text_bounded example_text 15 5 None); [lia | compute_done].
Defined.

(** [C10] (refuted as stated) With metadata that itself has an entry
    under ["text"], the chunk carries that entry and not the window: here
    the one chunk emitted has an empty text. *)
Lemma chunk_text_overridden :
  exists c,
    chunk_text (lit "ab") 500 50 (Some {[ "text" := VStr [] ]}) 1 = Ret [c]
    /\ c !! "text" = Some (VStr [])
    /\ ~ cut_from (lit "ab") 500 50 c.
Proof.
  exists (<["text" := VStr []]> (plain_chunk (lit "ab") 0)).
  split; [compute_done|]. split; [apply lookup_insert_eq|].
  intros (k & t & Ht & _ & Hne & _). rewrite lookup_insert_eq in Ht.
  injection Ht as <-. congruence.
Qed.

End ChunkerClaims.

(** ** Retrieval and prompt construction *)

Module RetrievalFacts.
Import Retriever RAGPipeline PipelineSpec.

(** Looking a key up in a dictionary literal. *)
Ltac lookup_literal :=
  cbn [list_to_map foldr fst snd curry uncurry];
  repeat first
    [ rewrite lookup_insert_eq
    | rewrite lookup_insert_ne by discriminate
    | rewrite lookup_empty ];
  try reflexivity.

Lemma chunk_of_id item md :
  chunk_of item md !! "id" = Some (default (VStr []) (hit_id item)).
Proof. unfold chunk_of. lookup_literal. Qed.

Lemma chunk_of_similarity item md :
  chunk_of item md !! "similarity" = Some (default float_zero (hit_score item)).
Proof. unfold chunk_of. lookup_literal. Qed.

Lemma chunk_of_text item md :
  chunk_of item md !! "text" = Some (default (VStr []) (md !! "text")).
Proof. unfold chunk_of. lookup_literal. Qed.

Lemma chunk_of_document_name item md :
  chunk_of item md !! "document_name"
  = Some (default (VStr []) (md !! "document_name")).
Proof. unfold chunk_of. lookup_literal. Qed.

Lemma chunk_of_page_number item md :
  chunk_of item md !! "page_number"
  = Some (default VNone (md !! "page_number")).
Proof. unfold chunk_of. lookup_literal. Qed.

Lemma chunk_of_paragraph_index item md :
  chunk_of item md !! "paragraph_index"
  = Some (default VNone (md !! "paragraph_index")).
Proof. unfold chunk_of. lookup_literal. Qed.

Lemma chunk_of_chunk_index item md :
  chunk_of item md !! "chunk_index"
  = Some (default (VInt 0) (md !! "chunk_index")).
Proof. unfold chunk_of. lookup_literal. Qed.

(** One hit: the pass returns exactly when the metadata is absent or an
    object, and then with the dictionary built from it. *)
Lemma normalize_hit_ok item :
  metadata_ok item ->
  normalize_hit item = Ret (chunk_of item (metadata_dict item)).
Proof.
  unfold metadata_ok, normalize_hit, metadata_of, metadata_dict.
  destruct (hit_metadata item) as [[d|v]|]; simpl; intros H;
    [reflexivity | destruct H | reflexivity].
Qed.

Lemma normalize_hit_ret item chunk :
  normalize_hit item = Ret chunk ->
  metadata_ok item /\ chunk = chunk_of item (metadata_dict item).
Proof.
  unfold metadata_ok, normalize_hit, metadata_of, metadata_dict.
  destruct (hit_metadata item) as [[d|v]|]; simpl; intros H;
    try discriminate; injection H as <-; split; constructor.
Qed.

Lemma normalize_from_ok items : forall acc,
  Forall metadata_ok items ->
  normalize_from acc items
  = Ret (acc ++ ((fun item => chunk_of item (metadata_dict item)) <$> items)).
Proof.
  induction items as [|item rest IH]; intros acc Hok; simpl.
  - rewrite app_nil_r. reflexivity.
  - inversion Hok as [|? ? Hitem Hrest]; subst.
    rewrite (normalize_hit_ok item Hitem). simpl.
    rewrite (IH _ Hrest), <- app_assoc. reflexivity.
Qed.

Lemma normalize_from_ret items : forall acc chunks,
  normalize_from acc items = Ret chunks -> Forall metadata_ok items.
Proof.
  induction items as [|item rest IH]; intros acc chunks H; simpl in H.
  - constructor.
  - destruct (normalize_hit item) as [chunk| |] eqn:Hhit; try discriminate.
    apply normalize_hit_ret in Hhit as [Hok _]. simpl in H.
    constructor; [exact Hok | eapply IH, H].
Qed.

(** The loop of [construct_prompt] over chunks that all have a text. *)
Lemma context_parts_from_ok svc chunks : forall i acc,
  Forall (fun chunk : pydict => is_Some (chunk !! "text")) chunks ->
  context_parts_from svc i acc chunks
  = Ret (acc ++ blocks_from svc i chunks).
Proof.
  induction chunks as [|chunk rest IH]; intros i acc Hall; simpl.
  - rewrite app_nil_r. reflexivity.
  - inversion Hall as [|? ? [text Htext] Hrest]; subst.
    unfold context_part, block. rewrite Htext. simpl.
    rewrite (IH _ _ Hrest), <- app_assoc. reflexivity.
Qed.

Lemma normalized_have_text (items : list hit) :
  Forall (fun chunk : pydict => is_Some (chunk !! "text"))
    ((fun item => chunk_of item (metadata_dict item)) <$> items).
Proof.
  apply Forall_fmap, Forall_forall. intros item _. simpl.
  rewrite chunk_of_text. eauto.
Qed.

Lemma construct_prompt_ok svc query chunks :
  Forall (fun chunk : pydict => is_Some (chunk !! "text")) chunks ->
  construct_prompt svc query chunks
  = Ret (prompt_of (join nl (blocks_from svc 1 chunks)) query).
Proof.
  intros Hall. unfold construct_prompt, context_parts.
  rewrite (context_parts_from_ok svc chunks 1 [] Hall). reflexivity.
Qed.

End RetrievalFacts.

Module RetrievalClaims.
Import Retriever RAGPipeline PipelineSpec RetrievalFacts.

(** [C4] For every chunk, [format_citation] resolves the location by
    precedence, first match wins: a page number that is present and truthy
    gives ["page {n}"]; otherwise a paragraph index that is present and
    truthy gives ["para {n}"]; otherwise ["chunk {chunk_index}"].  A chunk
    with [page_number = 3] and [paragraph_index = 7] renders ["page 3"],
    and a chunk with neither renders ["chunk {chunk_index}"]. *)
Theorem citation_precedence (svc : services) (chunk : pydict) :
  location svc chunk = spec_location svc chunk
  /\ format_citation svc chunk
     = lit "["
         ++ py_str svc (default (VStr (lit "Unknown")) (chunk !! "document_name"))
         ++ [32%N; en_dash; 32%N] ++ spec_location svc chunk ++ lit "]"
  /\ (forall n, set_truthy chunk "page_number" = Some n ->
        location svc chunk = lit "page " ++ py_str svc n)
  /\ (forall n, set_truthy chunk "page_number" = None ->
        set_truthy chunk "paragraph_index" = Some n ->
        location svc chunk = lit "para " ++ py_str svc n)
  /\ (set_truthy chunk "page_number" = None ->
      set_truthy chunk "paragraph_index" = None ->
      location svc chunk
      = lit "chunk " ++ py_str svc (default (VInt 0) (chunk !! "chunk_index")))
  /\ (chunk !! "page_number" = Some (VInt 3) ->
      chunk !! "paragraph_index" = Some (VInt 7) ->
      location svc chunk = lit "page 3")
  /\ (forall i, chunk !! "page_number" = None ->
        chunk !! "paragraph_index" = None ->
        chunk !! "chunk_index" = Some (VInt i) ->
        location svc chunk = lit "chunk " ++ of_int i).
Proof.
  assert (location svc chunk = spec_location svc chunk) as Hloc.
  { unfold location, spec_location, set_truthy.
    destruct (chunk !! "page_number") as [p|]; simpl.
    - destruct (truthy p); [reflexivity|].
      destruct (chunk !! "paragraph_index") as [q|]; simpl;
        [destruct (truthy q)|]; reflexivity.
    - destruct (chunk !! "paragraph_index") as [q|]; simpl;
        [destruct (truthy q)|]; reflexivity. }
  split; [exact Hloc|]. split.
  { unfold format_citation. rewrite Hloc. reflexivity. }
  rewrite Hloc. unfold spec_location.
  repeat split.
  - intros n ->. reflexivity.
  - intros n -> ->. reflexivity.
  - intros -> ->. reflexivity.
  - intros Hp _. unfold set_truthy. rewrite Hp. reflexivity.
  - intros i Hp Hq Hi. unfold set_truthy. rewrite Hp, Hq, Hi. reflexivity.
Qed.

(** The citation of a chunk of page 3 that also carries a paragraph
    index, and of a chunk that carries neither. *)
Lemma citation_examples :
  format_citation demo_services
    (list_to_map [ ("document_name", VStr (lit "a.pdf"));
                   ("page_number", VInt 3); ("paragraph_index", VInt 7);
                   ("chunk_index", VInt 2) ])
  = lit "[a.pdf " ++ [en_dash] ++ lit " page 3]"
  /\ format_citation demo_services
       (list_to_map [ ("document_name", VStr (lit "a.pdf"));
                      ("page_number", VNone); ("paragraph_index", VNone);
                      ("chunk_index", VInt 2) ])
     = lit "[a.pdf " ++ [en_dash] ++ lit " chunk 2]"
  /\ format_citation demo_services
       (list_to_map [ ("page_number", VInt 0); ("paragraph_index", VInt 7) ])
     = lit "[Unknown " ++ [en_dash] ++ lit " para 7]".
Proof. repeat split; compute_done. Qed.

(** Where every hit's metadata entry is absent or an object, the
    normalizer emits one chunk per hit in the order of the input:
    whenever it returns, its list is the list of the hits' chunks in input
    order, and it returns for every such list.  [construct_prompt] then
    builds its context from the blocks ["[i] {citation}\n{text}\n"],
    numbered from 1 in that same order and joined with a newline, which
    leaves a blank line between them; the joined blocks stand in the
    prompt between the lines [CONTEXT:] and [INSTRUCTIONS:]. *)
Theorem order_preserved (svc : services) (items : list hit) :
  (forall chunks,
     normalize items = Ret chunks ->
     chunks = (fun item => chunk_of item (metadata_dict item)) <$> items
     /\ length chunks = length items
     /\ (forall i item, items !! i = Some item ->
           chunks !! i = Some (chunk_of item (metadata_dict item)))
     /\ forall query,
          construct_prompt svc query chunks
          = Ret (prompt_of (join nl (blocks_from svc 1 chunks)) query)
          /\ exists before after,
               prompt_of (join nl (blocks_from svc 1 chunks)) query
               = before ++ lit "CONTEXT:" ++ nl
                   ++ join nl (blocks_from svc 1 chunks)
                   ++ nl ++ nl ++ lit "INSTRUCTIONS:" ++ after)
  /\ (Forall metadata_ok items ->
      normalize items
      = Ret ((fun item => chunk_of item (metadata_dict item)) <$> items)).
Proof.
  split.
  - intros chunks Hret.
    pose proof (normalize_from_ret items [] chunks Hret) as Hok.
    unfold normalize in Hret.
    rewrite (normalize_from_ok items [] Hok) in Hret. simpl in Hret.
    injection Hret as <-.
    split; [reflexivity|]. split; [apply length_fmap|]. split.
    + intros i item Hi. rewrite list_lookup_fmap, Hi. reflexivity.
    + intros query. split.
      * apply construct_prompt_ok, normalized_have_text.
      * unfold prompt_of.
        exists (lit "You are a helpful assistant that answers questions based on the provided context."
                  ++ nl ++ nl).
        eexists. rewrite <- !app_assoc. reflexivity.
  - intros Hok. unfold normalize.
    rewrite (normalize_from_ok items [] Hok). reflexivity.
Qed.

(** [C6] (the code at the failing input) A store answer of three hits
    whose second hit has [null] as its metadata: the loop of [retrieve]
    raises [AttributeError] at the second hit, so no chunk is emitted for
    any of the three hits, and [retrieve] raises after its embedding call
    and its search, where the claim has three chunks in input order.  The
    other two hits by themselves give their two chunks in order. *)
Theorem null_metadata_aborts_batch :
  length null_metadata_hits = 3%nat
  /\ normalize null_metadata_hits = Raise AttributeError
  /\ retrieve (store_answering null_metadata_hits) demo_retriever
       (lit "q") 3 (World 0 [])
     = (Raise AttributeError,
        World 2
          [ EvEmbeddings (embedding_model demo_retriever) [VStr (lit "q")];
            EvPost
              (lit "http://localhost:8080/indexes/rag_documents/search")
              (SearchPayload [0] 3 true) ])
  /\ exists first third,
       normalize (delete 1%nat null_metadata_hits) = Ret [first; third]
       /\ first !! "id" = Some (VStr (lit "a"))
       /\ third !! "id" = Some (VStr (lit "c")).
Proof.
  split; [reflexivity|]. split; [reflexivity|]. split; [compute_done|].
  exists (chunk_of (Hit (Some (VStr (lit "a"))) (Some (VInt 9)) None)
            {[ "text" := VStr (lit "first") ]}),
         (chunk_of (Hit (Some (VStr (lit "c"))) (Some (VInt 7)) None)
            {[ "text" := VStr (lit "third") ]}).
  split; [reflexivity|]. split; apply chunk_of_id.
Qed.

(** The five hits come out in the order they came in, and so do their
    context blocks. *)
Lemma five_hits_in_order :
  exists chunks,
    normalize five_hits = Ret chunks
    /\ (fun c : pydict => c !! "id") <$> chunks
       = (fun n => Some (VStr (lit n))) <$> [ "e"; "d"; "c"; "b"; "a" ]
    /\ (fun c : pydict => c !! "similarity") <$> chunks
       = (fun z => Some (VInt z)) <$> [ 3; 9; 1; 7; 5 ]
    /\ blocks_from demo_services 1 chunks
       = (fun '(i, n) =>
            lit "[" ++ lit i ++ lit "] [d " ++ [en_dash] ++ lit " chunk 0]"
              ++ nl ++ lit n ++ nl)
         <$> [ ("1", "e"); ("2", "d"); ("3", "c"); ("4", "b"); ("5", "a") ].
Proof.
  exists ((fun item => chunk_of item (metadata_dict item)) <$> five_hits).
  repeat split; compute_done.
Qed.

(** [C7] (as amended) For every list of raw hits whose metadata entry is
    absent or an object, normalization returns, one chunk per hit.  The
    hit's score becomes the chunk's similarity as it is ([0.0] when the
    hit has none), a missing id, text or document name becomes the empty
    string, a missing chunk index becomes 0, and a missing page number or
    paragraph index becomes [None].  Prompt construction over the chunks
    returns a prompt. *)
Theorem normalize_defaults (svc : services) (items : list hit) :
  Forall metadata_ok items ->
  exists chunks,
    normalize items = Ret chunks
    /\ length chunks = length items
    /\ (forall i item chunk,
          items !! i = Some item -> chunks !! i = Some chunk ->
          let md := metadata_dict item in
          chunk !! "similarity" = Some (default float_zero (hit_score item))
          /\ chunk !! "id" = Some (default (VStr []) (hit_id item))
          /\ chunk !! "text" = Some (default (VStr []) (md !! "text"))
          /\ chunk !! "document_name"
             = Some (default (VStr []) (md !! "document_name"))
          /\ chunk !! "chunk_index"
             = Some (default (VInt 0) (md !! "chunk_index"))
          /\ chunk !! "page_number"
             = Some (default VNone (md !! "page_number"))
          /\ chunk !! "paragraph_index"
             = Some (default VNone (md !! "paragraph_index")))
    /\ (forall query, exists prompt,
          construct_prompt svc query chunks = Ret prompt).
Proof.
  intros Hok.
  exists ((fun item => chunk_of item (metadata_dict item)) <$> items).
  split; [unfold normalize; rewrite (normalize_from_ok items [] Hok);
          reflexivity|].
  split; [apply length_fmap|]. split.
  - intros i item chunk Hi Hc. rewrite list_lookup_fmap, Hi in Hc.
    injection Hc as <-. cbv zeta.
    rewrite chunk_of_similarity, chunk_of_id, chunk_of_text,
      chunk_of_document_name, chunk_of_chunk_index, chunk_of_page_number,
      chunk_of_paragraph_index.
    repeat split.
  - intros query. eexists. apply construct_prompt_ok, normalized_have_text.
Qed.

(** The theorem at three hits with parts missing. *)
Lemma normalize_defaults_witness :
  exists chunks,
    normalize bare_hits = Ret chunks
    /\ length chunks = length bare_hits
    /\ (forall i item chunk,
          bare_hits !! i = Some item -> chunks !! i = Some chunk ->
          let md := metadata_dict item in
          chunk !! "similarity" = Some (default float_zero (hit_score item))
          /\ chunk !! "id" = Some (default (VStr []) (hit_id item))
          /\ chunk !! "text" = Some (default (VStr []) (md !! "text"))
          /\ chunk !! "document_name"
             = Some (default (VStr []) (md !! "document_name"))
          /\ chunk !! "chunk_index"
             = Some (default (VInt 0) (md !! "chunk_index"))
          /\ chunk !! "page_number"
             = Some (default VNone (md !! "page_number"))
          /\ chunk !! "paragraph_index"
             = Some (default VNone (md !! "paragraph_index")))
    /\ (forall query, exists prompt,
          construct_prompt demo_services query chunks = Ret prompt).
Proof.
  apply (normalize_defaults demo_services bare_hits).
  repeat constructor.
Defined.

(** [C7] (refuted as stated) A hit whose metadata has no page number and
    no paragraph index gets [None] for both, which is neither the empty
    string nor zero. *)
Lemma missing_location_is_none :
  exists chunk,
    normalize [ Hit (Some (VStr (lit "v1"))) (Some (VInt 1))
                  (Some (MetaDict {[ "text" := VStr (lit "hello") ]})) ]
    = Ret [chunk]
    /\ chunk !! "page_number" = Some VNone
    /\ chunk !! "paragraph_index" = Some VNone
    /\ VNone <> VStr [] /\ VNone <> VInt 0 /\ VNone <> float_zero.
Proof.
  exists (chunk_of (Hit (Some (VStr (lit "v1"))) (Some (VInt 1)) None)
            {[ "text" := VStr (lit "hello") ]}).
  split; [reflexivity|].
  split; [apply chunk_of_page_number|].
  split; [apply chunk_of_paragraph_index|].
  repeat split; discriminate.
Qed.

(** A hit whose metadata entry is present and not an object stops the
    loop with an [AttributeError], whatever came before it. *)
Lemma other_metadata_raises (items : list hit) (item : hit) (v : pyval)
    (rest : list hit) :
  Forall metadata_ok items ->
  hit_metadata item = Some (MetaOther v) ->
  normalize (items ++ item :: rest) = Raise AttributeError.
Proof.
  intros Hok Hv. unfold normalize. generalize (@nil pydict).
  induction Hok as [|x l Hx Hl IH]; intros acc; simpl.
  - unfold normalize_hit, metadata_of. rewrite Hv. reflexivity.
  - rewrite (normalize_hit_ok x Hx). simpl. apply IH.
Qed.

End RetrievalClaims.

(** ** The answer orchestrator *)

Module AnswerClaims.
Import RAGPipeline PipelineSpec.

(** [C1] For every query whose retrieval step yields zero chunks,
    [generate_answer] returns at once: the fixed fallback answer, an empty
    chunk list, the retrieval latency as the retriever recorded it, a
    generation latency of 0, and as total latency the time elapsed between
    its first reading of the clock and one made after retrieval.  The
    calls made to the services are those made by the retrieval step: the
    chat model is not called. *)
Theorem empty_retrieval_short_circuit (svc : services)
    (retrieve : pystr -> Z -> M Retriever.retrieval) (llm_model query : pystr)
    (top_k : Z) (w w' : world) (r : Retriever.retrieval) :
  retrieve query top_k (tick w) = (Ret r, w') ->
  Retriever.chunks r = [] ->
  generate_answer svc retrieve llm_model query top_k w
  = (Ret {| answer := VStr fallback_answer;
            chunks := [];
            retrieval_latency_ms := Retriever.retrieval_latency_ms r;
            generation_latency_ms := VInt 0;
            total_latency_ms :=
              VFloat (float_elapsed_ms svc
                        (time_time svc (clock_reads w))
                        (time_time svc (clock_reads w'))) |},
     tick w')
  /\ calls (tick w') = calls w'
  /\ fallback_answer
     = lit "I couldn't find any relevant information to answer your question.".
Proof.
  intros Hret Hnone. split; [|split; reflexivity].
  unfold generate_answer, bind, now. fold (tick w). rewrite Hret, Hnone.
  reflexivity.
Qed.

(** The retriever of the repository calls the embedding model and the
    vector store, never the chat model: with it, a query that finds
    nothing ends without any chat call made since it began. *)
Lemma retrieve_makes_no_chat_call (svc : services) (self : Retriever.t)
    (query : pystr) (top_k : Z) (w : world) :
  filter is_chat (calls (snd (Retriever.retrieve svc self query top_k w)))
  = filter is_chat (calls w).
Proof.
  unfold Retriever.retrieve, Retriever.generate_query_embedding,
    EndeeClient.search, bind, call_embeddings, call_post, now, lift, ret,
    raise.
  repeat case_match; simplify_eq/=; rewrite ?filter_app, ?app_nil_r;
    reflexivity.
Qed.

(** The theorem at the retriever of the repository, with a vector store
    that answers without hits. *)
Lemma empty_retrieval_short_circuit_witness :
  exists res w',
    generate_answer demo_services
      (Retriever.retrieve demo_services demo_retriever)
      (lit "gpt-4-turbo-preview") (lit "what?") 5 (World 0 [])
    = (Ret res, w')
    /\ answer res = VStr fallback_answer
    /\ chunks res = []
    /\ generation_latency_ms res = VInt 0
    /\ existsb is_chat (calls w') = false
    /\ length (calls w') = 2%nat.
Proof.
  destruct (empty_retrieval_short_circuit demo_services
              (Retriever.retrieve demo_services demo_retriever)
              (lit "gpt-4-turbo-preview") (lit "what?") 5 (World 0 [])
              (snd (Retriever.retrieve demo_services demo_retriever
                      (lit "what?") 5 (tick (World 0 []))))
              (Retriever.Retrieval [] (VFloat 1) (lit "what?")))
    as (Hrun & _ & _); [vm_compute; reflexivity | reflexivity |].
  eexists _, _. split; [exact Hrun|].
  repeat split; vm_compute; reflexivity.
Defined.

End AnswerClaims.

(** ** Ingestion *)

Module IngestFacts.
Import IngestionPipeline PipelineSpec.

Lemma prefix_unique {A} (x : A) (p p' q q' : list A) :
  x ∉ p -> x ∉ p' -> p ++ x :: q = p' ++ x :: q' -> p = p'.
Proof.
  revert p'. induction p as [|a p IH]; intros [|a' p'] Hp Hp' Heq;
    simpl in Heq.
  - reflexivity.
  - injection Heq as <- _. exfalso. apply Hp'. left.
  - injection Heq as -> _. exfalso. apply Hp. left.
  - injection Heq as <- Heq. f_equal.
    apply IH; [| | exact Heq].
    + intros H. apply Hp. right. exact H.
    + intros H. apply Hp'. right. exact H.
Qed.

(** What follows the last occurrence of [x] is determined by the whole. *)
Lemma suffix_unique {A} (x : A) (a a' d d' : list A) :
  x ∉ d -> x ∉ d' -> a ++ x :: d = a' ++ x :: d' -> d = d'.
Proof.
  intros Hd Hd' Heq. apply (f_equal (@rev A)) in Heq.
  rewrite !rev_app_distr in Heq. simpl in Heq.
  rewrite <- !app_assoc in Heq. simpl in Heq.
  apply prefix_unique in Heq.
  - apply (f_equal (@rev A)) in Heq. rewrite !rev_involutive in Heq.
    exact Heq.
  - intros H. apply Hd, list_elem_of_In, in_rev, list_elem_of_In, H.
  - intros H. apply Hd', list_elem_of_In, in_rev, list_elem_of_In, H.
Qed.

Lemma lit_inj (s t : string) : lit s = lit t -> s = t.
Proof.
  revert t. induction s as [|a s IH]; intros [|b t] H; simpl in H;
    try discriminate; [reflexivity|].
  injection H as Hab Hst. f_equal; [|apply IH, Hst].
  rewrite <- (ascii_N_embedding a), <- (ascii_N_embedding b), Hab.
  reflexivity.
Qed.

Lemma of_int_inj (i j : Z) : of_int i = of_int j -> i = j.
Proof. intros H. apply lit_inj in H. apply (inj pretty) in H. exact H. Qed.

Lemma digit_no_underscore (x : N) : N_of_ascii (pretty_N_char x) <> 95%N.
Proof. unfold pretty_N_char. repeat case_match; discriminate. Qed.

Lemma pretty_N_go_no_underscore (x : N) : forall s,
  95%N ∉ lit s -> 95%N ∉ lit (pretty_N_go x s).
Proof.
  induction (N.lt_wf_0 x) as [x _ IH]. intros s Hs.
  assert (x = 0 \/ 0 < x)%N as [->|Hpos] by lia.
  - rewrite pretty_N_go_0. exact Hs.
  - rewrite pretty_N_go_step by exact Hpos. apply IH.
    + apply N.div_lt; lia.
    + simpl. intros H. apply elem_of_cons in H as [H|H].
      * symmetry in H. revert H. apply digit_no_underscore.
      * apply Hs, H.
Qed.

Lemma pretty_N_no_underscore (x : N) : 95%N ∉ lit (pretty x).
Proof.
  unfold pretty, pretty_N. destruct (decide (x = 0%N)) as [_|_].
  - simpl. intros Hin. apply list_elem_of_singleton in Hin. discriminate.
  - apply pretty_N_go_no_underscore. simpl. apply not_elem_of_nil.
Qed.

(** The decimal form of an integer has no underscore. *)
Lemma of_int_no_underscore (z : Z) : 95%N ∉ of_int z.
Proof.
  unfold of_int, pretty, pretty_Z. destruct z as [|p|p].
  - simpl. intros H. apply list_elem_of_singleton in H. discriminate.
  - apply pretty_N_no_underscore.
  - simpl. intros H. apply elem_of_cons in H as [H|H]; [discriminate|].
    revert H. apply pretty_N_no_underscore.
Qed.

(** Two ids built with different indices differ. *)
Lemma id_inj (n n' : pystr) (i j : Z) :
  n ++ lit "_" ++ of_int i = n' ++ lit "_" ++ of_int j -> i = j.
Proof.
  intros H. apply of_int_inj.
  apply (suffix_unique 95%N n n'); [apply of_int_no_underscore.. | exact H].
Qed.

Section Ids.
Variable svc : services.

Lemma zip_fst {A B} (l : list A) (k : list B) :
  fst <$> zip l k = take (length k) l.
Proof.
  revert k. induction l as [|a l IH]; intros [|b k]; simpl;
    try reflexivity. rewrite IH. reflexivity.
Qed.

Lemma prepare_from_ids (pairs : list (pydict * embedding)) : forall i,
  vr_id <$> prepare_from svc i pairs = ids_from svc i (fst <$> pairs).
Proof.
  induction pairs as [|[chunk e] rest IH]; intros i; simpl;
    [reflexivity|]. rewrite IH. reflexivity.
Qed.

Lemma ids_from_elem (chunks : list pydict) : forall i id,
  id ∈ ids_from svc i chunks ->
  exists n j, i <= j /\ id = n ++ lit "_" ++ of_int j.
Proof.
  induction chunks as [|c rest IH]; intros i id H; simpl in H.
  - apply elem_of_nil in H. destruct H.
  - apply elem_of_cons in H as [->|H].
    + exists (name_of svc c), i. split; [lia | reflexivity].
    + destruct (IH _ _ H) as (n & j & Hj & ->). exists n, j.
      split; [lia | reflexivity].
Qed.

Lemma ids_from_NoDup (chunks : list pydict) : forall i,
  NoDup (ids_from svc i chunks).
Proof.
  induction chunks as [|c rest IH]; intros i; simpl; constructor.
  - intros H. apply ids_from_elem in H as (n & j & Hj & Heq).
    apply id_inj in Heq. lia.
  - apply IH.
Qed.

Lemma ids_from_lookup (chunks : list pydict) : forall i k c,
  chunks !! k = Some c ->
  ids_from svc i chunks !! k
  = Some (name_of svc c ++ lit "_" ++ of_int (i + Z.of_nat k)).
Proof.
  induction chunks as [|c' rest IH]; intros i k c H; [discriminate|].
  destruct k as [|k]; simpl in *.
  - injection H as ->. rewrite Z.add_0_r. reflexivity.
  - rewrite (IH (i + 1) k c H). do 4 f_equal. lia.
Qed.

Lemma ids_from_names (chunks chunks' : list pydict) : forall i,
  name_of svc <$> chunks' = name_of svc <$> chunks ->
  ids_from svc i chunks' = ids_from svc i chunks.
Proof.
  revert chunks'.
  induction chunks as [|c rest IH]; intros [|c' rest'] i H; simpl in *;
    try discriminate; [reflexivity|].
  injection H as Hc Hrest. rewrite Hc, (IH _ _ Hrest). reflexivity.
Qed.

End Ids.

Section Loading.
Variable svc : services.

Lemma of_reply_fuel {A} (r : reply A) : of_reply r <> NoFuel.
Proof. destruct r; discriminate. Qed.

(** Loading a document returns or raises. *)
Lemma load_document_fuel content name :
  load_document svc content name <> NoFuel.
Proof.
  unfold load_document, Loaders.load_pdf, Loaders.load_docx.
  repeat case_match; try discriminate;
    match goal with
    | |- obind (of_reply ?r) _ <> _ => destruct r; discriminate
    end.
Qed.

(** The loop over the files gathers the sections of the files that load
    and passes over the others. *)
Lemma load_all_loaded (files : list file) : forall acc,
  load_all svc acc files = Ret (acc ++ loaded svc files).
Proof.
  induction files as [|[content name] rest IH]; intros acc; simpl.
  - rewrite app_nil_r. reflexivity.
  - pose proof (load_document_fuel content name) as Hfuel.
    destruct (load_document svc content name) as [docs|e|]; simpl.
    + rewrite IH, <- app_assoc. reflexivity.
    + apply IH.
    + destruct Hfuel. reflexivity.
Qed.

End Loading.

Lemma failure_fields (error : string) :
  failure error !! "success" = Some (VBool false)
  /\ failure error !! "error" = Some (VStr (lit error))
  /\ failure error !! "chunks_created" = Some (VInt 0)
  /\ failure error !! "vectors_stored" = Some (VInt 0).
Proof.
  unfold failure. cbn [list_to_map foldr fst snd curry uncurry].
  repeat split;
    repeat first [ rewrite lookup_insert_eq
                 | rewrite lookup_insert_ne by discriminate ];
    reflexivity.
Qed.

End IngestFacts.

Module IngestClaims.
Import IngestionPipeline PipelineSpec IngestFacts.

(** [C5] (as amended) For every chunk list and embedding list, the id of
    each record the ingestion pipeline prepares is ["{name}_{i}"], where
    [name] is the chunk's document name and [i] is the chunk's position in
    the whole batch, counted from 0 across all documents.  The ids of a
    batch are pairwise distinct, and they are fixed by the sequence of
    document names of the batch, so ingesting the same files in the same
    order again gives the same ids. *)
Theorem record_ids (svc : services) (chunks : list pydict)
    (embeddings : list embedding) :
  vr_id <$> prepare_vectors svc chunks embeddings
  = ids_from svc 0 (take (length embeddings) chunks)
  /\ (forall i chunk e,
        zip chunks embeddings !! i = Some (chunk, e) ->
        (vr_id <$> prepare_vectors svc chunks embeddings) !! i
        = Some (name_of svc chunk ++ lit "_" ++ of_int (Z.of_nat i)))
  /\ NoDup (vr_id <$> prepare_vectors svc chunks embeddings)
  /\ (forall chunks',
        name_of svc <$> chunks' = name_of svc <$> chunks ->
        vr_id <$> prepare_vectors svc chunks' embeddings
        = vr_id <$> prepare_vectors svc chunks embeddings).
Proof.
  assert (forall cs, vr_id <$> prepare_vectors svc cs embeddings
                     = ids_from svc 0 (take (length embeddings) cs)) as Hids.
  { intros cs. unfold prepare_vectors.
    rewrite prepare_from_ids, zip_fst. reflexivity. }
  split; [apply Hids|]. split; [|split].
  - intros i chunk e Hi. rewrite Hids.
    assert (take (length embeddings) chunks !! i = Some chunk) as Hc.
    { rewrite <- zip_fst, list_lookup_fmap, Hi. reflexivity. }
    rewrite (ids_from_lookup svc _ 0 i chunk Hc). reflexivity.
  - rewrite Hids. apply ids_from_NoDup.
  - intros chunks' Hnames. rewrite !Hids. apply ids_from_names.
    rewrite !fmap_take, Hnames. reflexivity.
Qed.

(** [C5] (refuted as stated) In a batch of two one-page documents the
    chunk of the second document is the first of its document, so its
    per-document emission index is 0, yet its id ends in 1; ingested
    alone, the same chunk gets an id that ends in 0.  The id is therefore
    not a function of the document name and the per-document index. *)
Lemma id_not_per_document :
  exists chunks chunks' c,
    Chunker.chunk_documents 1 two_documents 500 50 = Ret chunks
    /\ Chunker.chunk_documents 1 second_document 500 50 = Ret chunks'
    /\ chunks !! 1%nat = Some c /\ chunks' !! 0%nat = Some c
    /\ per_document_index chunks 1 = 0
    /\ per_document_index chunks' 0 = 0
    /\ vr_id <$> prepare_vectors demo_services chunks [[0]; [0]]
       = [ lit "a.pdf_0"; lit "b.pdf_1" ]
    /\ vr_id <$> prepare_vectors demo_services chunks' [[0]]
       = [ lit "b.pdf_0" ].
Proof.
  exists [ Chunker.chunk_data (Some (delete "text" (page_of "a.pdf" "alpha")))
             (lit "alpha") 0;
           Chunker.chunk_data (Some (delete "text" (page_of "b.pdf" "beta")))
             (lit "beta") 0 ],
         [ Chunker.chunk_data (Some (delete "text" (page_of "b.pdf" "beta")))
             (lit "beta") 0 ],
         (Chunker.chunk_data (Some (delete "text" (page_of "b.pdf" "beta")))
            (lit "beta") 0).
  repeat split; compute_done.
Qed.

(** [C9] For every list of files: a file whose loading raises is passed
    over and the files after it are still loaded.  [ingest_documents]
    returns a failure, a dictionary with [success] false, exactly in two
    cases: no file gave a section, with the error ["No documents were
    successfully loaded"], or chunking the sections loaded gave no chunk,
    with the error ["No chunks were created"].  Both have zero counts, the
    two errors differ, and no service has been called. *)
Theorem ingest_failures (svc : services) (self : t) (fuel : nat)
    (files : list file) (w : world) :
  load_all svc [] files = Ret (loaded svc files)
  /\ (forall content name rest acc e,
        load_document svc content name = Raise e ->
        load_all svc acc ((content, name) :: rest) = load_all svc acc rest)
  /\ (loaded svc files = [] ->
      ingest_documents svc self fuel files w
      = (Ret (failure "No documents were successfully loaded"), w))
  /\ (loaded svc files <> [] ->
      Chunker.chunk_documents fuel (loaded svc files)
        (chunk_size self) (chunk_overlap self) = Ret [] ->
      ingest_documents svc self fuel files w
      = (Ret (failure "No chunks were created"), w))
  /\ (forall d w',
        ingest_documents svc self fuel files w = (Ret d, w') ->
        d !! "success" = Some (VBool false) ->
        w' = w
        /\ ((loaded svc files = []
             /\ d = failure "No documents were successfully loaded")
            \/ (loaded svc files <> []
                /\ Chunker.chunk_documents fuel (loaded svc files)
                     (chunk_size self) (chunk_overlap self) = Ret []
                /\ d = failure "No chunks were created")))
  /\ (forall error,
        failure error !! "success" = Some (VBool false)
        /\ failure error !! "error" = Some (VStr (lit error))
        /\ failure error !! "chunks_created" = Some (VInt 0)
        /\ failure error !! "vectors_stored" = Some (VInt 0))
  /\ failure "No documents were successfully loaded"
     <> failure "No chunks were created".
Proof.
  pose proof (load_all_loaded svc files []) as Hload. simpl in Hload.
  split; [exact Hload|]. split.
  { intros content name rest acc e He. simpl. rewrite He. reflexivity. }
  assert (forall k : list pydict -> M pydict,
            bind (lift (load_all svc [] files)) k w
            = k (loaded svc files) w) as Hstep.
  { intros k. unfold bind, lift. rewrite Hload. reflexivity. }
  split; [|split; [|split; [|split]]].
  - intros Hnone. unfold ingest_documents. rewrite Hstep, Hnone. reflexivity.
  - intros Hsome Hchunks. unfold ingest_documents. rewrite Hstep.
    destruct (loaded svc files) as [|doc docs]; [congruence|].
    unfold bind, lift. rewrite Hchunks. reflexivity.
  - intros d w'. unfold ingest_documents. rewrite Hstep.
    destruct (loaded svc files) as [|doc docs] eqn:Hdocs.
    + intros [= <- <-] _. split; [reflexivity|]. left. split; reflexivity.
    + unfold bind at 1. unfold lift at 1.
      destruct (Chunker.chunk_documents fuel (doc :: docs)
                  (chunk_size self) (chunk_overlap self))
        as [[|c cs]| |] eqn:Hchunks; try discriminate.
      * intros [= <- <-] _. split; [reflexivity|]. right.
        repeat split. discriminate.
      * unfold bind, lift, ret.
        repeat match goal with
               | |- context [match ?x with _ => _ end] =>
                   destruct x eqn:?; try discriminate
               end.
        intros [= <- <-] Hfalse. exfalso. revert Hfalse.
        cbn [list_to_map foldr fst snd curry uncurry].
        rewrite lookup_insert_eq. discriminate.
  - apply failure_fields.
  - intros H. apply (f_equal (fun d : pydict => d !! "error")) in H.
    destruct (failure_fields "No documents were successfully loaded")
      as (_ & H1 & _).
    destruct (failure_fields "No chunks were created") as (_ & H2 & _).
    simpl in H. rewrite H1, H2 in H. discriminate.
Qed.

(** Both failures and a success in which an unsupported file is passed
    over, under the services of the examples. *)
Lemma ingest_examples :
  ingest_documents demo_services demo_pipeline 1
    [ ([], lit "notes.txt"); ([Byte.x20], lit "blank.pdf") ] (World 0 [])
  = (Ret (failure "No documents were successfully loaded"), World 0 [])
  /\ ingest_documents demo_services zero_window_pipeline 1
       [ ([Byte.x68], lit "a.pdf") ] (World 0 [])
     = (Ret (failure "No chunks were created"), World 0 [])
  /\ fst (ingest_documents demo_services demo_pipeline 1
            [ ([], lit "notes.txt"); ([Byte.x68], lit "A.PDF") ] (World 0 []))
     = Ret (list_to_map [ ("success", VBool true);
                          ("files_processed", VInt 2);
                          ("chunks_created", VInt 1);
                          ("vectors_stored", VInt 1);
                          ("upsert_time_ms", VFloat 1) ]).
Proof. repeat split; compute_done. Qed.

End IngestClaims.

(* ===================================================================== *)
(** * Further properties of the code *)
(* ===================================================================== *)

(** ** Trimming and slicing *)

Module StripFacts.

Lemma lstrip_blank (s : pystr) :
  Forall (fun c => isspace c = true) s -> lstrip s = [].
Proof.
  induction 1 as [|c r Hc _ IH]; simpl; [reflexivity|].
  rewrite Hc. exact IH.
Qed.

Lemma strip_blank (s : pystr) :
  Forall (fun c => isspace c = true) s -> strip s = [].
Proof.
  intros H. unfold strip, rstrip. rewrite (lstrip_blank s H). reflexivity.
Qed.

(** Trimming on the left keeps every character that is not white space. *)
Lemma lstrip_keeps (s : pystr) (x : N) :
  x ∈ s -> isspace x = false -> x ∈ lstrip s.
Proof.
  induction s as [|c r IH]; intros Hin Hx; simpl; [exact Hin|].
  destruct (isspace c) eqn:Hc; [|exact Hin].
  apply elem_of_cons in Hin as [->|Hin]; [congruence|].
  apply IH; assumption.
Qed.

Lemma elem_of_rev (s : pystr) (x : N) : x ∈ rev s <-> x ∈ s.
Proof.
  split; intros H; apply list_elem_of_In; apply list_elem_of_In in H.
  - apply in_rev, H.
  - apply in_rev in H. exact H.
Qed.

Lemma strip_keeps (s : pystr) (x : N) :
  x ∈ s -> isspace x = false -> x ∈ strip s.
Proof.
  intros Hin Hx. unfold strip, rstrip.
  apply elem_of_rev, lstrip_keeps; [|exact Hx].
  apply elem_of_rev, lstrip_keeps; assumption.
Qed.

Lemma lstrip_subset (s : pystr) (x : N) : x ∈ lstrip s -> x ∈ s.
Proof.
  induction s as [|c r IH]; simpl; [auto|].
  destruct (isspace c); [|auto]. intros H. right. apply IH, H.
Qed.

Lemma strip_subset (s : pystr) (x : N) : x ∈ strip s -> x ∈ s.
Proof.
  unfold strip, rstrip. intros H.
  apply lstrip_subset, elem_of_rev, lstrip_subset, elem_of_rev, H.
Qed.

(** A text is blank, that is empty once trimmed, exactly when all its
    characters are white space. *)
Lemma strip_nil_iff (s : pystr) :
  strip s = [] <-> Forall (fun c => isspace c = true) s.
Proof.
  split; [|apply strip_blank].
  intros H. apply Forall_forall. intros x Hin.
  destruct (isspace x) eqn:Hx; [reflexivity|].
  pose proof (strip_keeps s x Hin Hx) as Hs. rewrite H in Hs.
  apply elem_of_nil in Hs. destruct Hs.
Qed.

(** What trimming on the left returns does not begin with white space. *)
Lemma lstrip_head (s : pystr) (c : N) (r : pystr) :
  lstrip s = c :: r -> isspace c = false.
Proof.
  induction s as [|a s IH]; simpl; [discriminate|].
  destruct (isspace a) eqn:Ha; [exact IH|].
  intros [= <- _]. exact Ha.
Qed.

Lemma lstrip_app_nonspace (s : pystr) (c : N) :
  isspace c = false -> exists u, lstrip (s ++ [c]) = u ++ [c].
Proof.
  intros Hc. induction s as [|a s [u IH]]; simpl.
  - rewrite Hc. exists []. reflexivity.
  - destruct (isspace a); [exists u; exact IH|].
    exists (a :: s). reflexivity.
Qed.

(** A trimmed text that is not empty begins with a character that is not
    white space. *)
Lemma strip_head (s : pystr) (c : N) (r : pystr) :
  strip s = c :: r -> isspace c = false.
Proof.
  unfold strip, rstrip. intros H.
  destruct (lstrip s) as [|a u] eqn:Hl; [discriminate|].
  pose proof (lstrip_head s a u Hl) as Ha.
  simpl in H. destruct (lstrip_app_nonspace (rev u) a Ha) as [v Hv].
  rewrite Hv, rev_app_distr in H. simpl in H.
  injection H as <- _. exact Ha.
Qed.

(** The character at a position inside a slice is the character of the
    text at that position. *)
Lemma slice_lookup (s : pystr) (a b : Z) (p : nat) (c : N) :
  0 <= a -> a <= Z.of_nat p < b -> s !! p = Some c ->
  slice s a b !! (p - Z.to_nat a)%nat = Some c.
Proof.
  intros Ha Hp Hc. unfold slice.
  pose proof (lookup_lt_Some _ _ _ Hc) as Hlt.
  assert (clip (len s) a = a) as ->.
  { unfold clip, len. destruct (a <? 0) eqn:E; lia. }
  rewrite lookup_take_lt.
  - rewrite lookup_drop. rewrite <- Hc. f_equal. lia.
  - unfold clip, len. destruct (b <? 0) eqn:E; lia.
Qed.

End StripFacts.

(** ** More on the chunker *)

Module ChunkerMore.
Import Chunker ChunkerSpec PyStrFacts ChunkerFacts StripFacts.

Section Run.
Variable text : pystr.
Variable chunk_size chunk_overlap : Z.
Variable metadata : option pydict.

Local Abbreviation pass := (pass text chunk_size chunk_overlap metadata).
Local Abbreviation passes := (passes text chunk_size chunk_overlap metadata).
Local Abbreviation loop := (loop text chunk_size chunk_overlap metadata).
Local Abbreviation window := (window text chunk_size).
Local Abbreviation chunk_data := (chunk_data metadata).
Local Abbreviation chunk_text_passes :=
  (chunk_text_passes text chunk_size chunk_overlap metadata).
Local Abbreviation chunk_text :=
  (chunk_text text chunk_size chunk_overlap metadata).
Local Abbreviation step := (chunk_size - chunk_overlap).

Lemma blank_test :
  negb (nonempty text) || negb (nonempty (strip text)) = true
  <-> strip text = [].
Proof.
  destruct text as [|c r] eqn:Ht; simpl; [split; reflexivity|].
  destruct (strip (c :: r)); simpl; split; congruence.
Qed.

(** A run either found the text blank, or went through the loop. *)
Lemma run_cases fuel cs n :
  chunk_text_passes fuel = Ret (cs, n) ->
  (strip text = [] /\ cs = [] /\ n = 0%nat)
  \/ (strip text <> [] /\ cs = chunks (passes n init)
      /\ len text <= Z.of_nat n * step).
Proof.
  unfold Chunker.chunk_text_passes.
  destruct (negb (nonempty text) || negb (nonempty (strip text))) eqn:Hb.
  - intros [= <- <-]. left. repeat split. apply blank_test, Hb.
  - destruct (loop fuel init) as [[st m]| |] eqn:Hl; simpl; try discriminate.
    intros [= <- <-]. right.
    apply loop_ret in Hl as (-> & _ & Hend & _).
    rewrite passes_start in Hend. simpl in Hend.
    repeat split; [|exact Hend].
    intros Hs. apply blank_test in Hs. congruence.
Qed.

Lemma passes_length n : (length (chunks (passes n init)) <= n)%nat.
Proof.
  induction n as [|n IH]; [simpl; lia|].
  rewrite passes_S, pass_eq.
  destruct (nonempty _); simpl; [rewrite length_app; simpl|]; lia.
Qed.

(** Every window of the first [n] that is not blank has its chunk in the
    list after [n] passes. *)
Lemma passes_complete n k :
  (k < n)%nat ->
  nonempty (window (Z.of_nat k * step)) = true ->
  exists i,
    chunks (passes n init) !! i
    = Some (chunk_data (window (Z.of_nat k * step)) (Z.of_nat i)).
Proof.
  induction n as [|n IH]; intros Hk Hne; [lia|].
  rewrite passes_S, pass_eq.
  assert (start (passes n init) = Z.of_nat n * step) as Hs
    by (rewrite passes_start; simpl; lia).
  destruct (decide (k = n)) as [->|Hkn].
  - rewrite Hs, Hne. simpl.
    exists (length (chunks (passes n init))).
    rewrite lookup_app_r by lia. rewrite Nat.sub_diag. simpl.
    destruct (passes_emitted text chunk_size chunk_overlap metadata n)
      as [-> _]. reflexivity.
  - destruct (IH ltac:(lia) Hne) as [i Hi]. exists i.
    destruct (nonempty (window (start (passes n init)))); simpl;
      [apply lookup_app_l_Some|]; exact Hi.
Qed.

(** In a run with a window longer than its overlap, a position that
    holds a character other than white space lies in the window of a
    chunk of the list. *)
Lemma covered fuel cs n (p : nat) (c : N) :
  0 <= chunk_overlap < chunk_size ->
  chunk_text_passes fuel = Ret (cs, n) ->
  text !! p = Some c -> isspace c = false ->
  exists i k,
    cs !! i = Some (chunk_data (window (Z.of_nat k * step)) (Z.of_nat i))
    /\ Z.of_nat k * step <= Z.of_nat p < Z.of_nat k * step + chunk_size
    /\ c ∈ window (Z.of_nat k * step).
Proof.
  intros Hvalid Hrun Hp Hc.
  assert (c ∈ text) as Hin by (apply list_elem_of_lookup; eauto).
  apply run_cases in Hrun as [(Hblank & _)|(_ & -> & Hend)].
  { apply strip_nil_iff in Hblank.
    rewrite Forall_forall in Hblank. rewrite (Hblank c Hin) in Hc.
    discriminate. }
  pose proof (lookup_lt_Some _ _ _ Hp) as Hlt. unfold len in Hend.
  set (k := Z.to_nat (Z.of_nat p / step)).
  assert (0 <= Z.of_nat p / step) as Hq by (apply Z.div_pos; lia).
  assert (Z.of_nat k = Z.of_nat p / step) as Hk by (unfold k; lia).
  pose proof (Z.mul_div_le (Z.of_nat p) step ltac:(lia)) as Hlo.
  pose proof (Z.mul_succ_div_gt (Z.of_nat p) step ltac:(lia)) as Hhi.
  assert (Z.of_nat k * step <= Z.of_nat p < Z.of_nat k * step + chunk_size)
    as Hwin by (rewrite Hk; lia).
  assert (c ∈ window (Z.of_nat k * step)) as Hcw.
  { unfold Chunker.window. apply strip_keeps; [|exact Hc].
    apply list_elem_of_lookup. eexists.
    apply (slice_lookup text _ _ p c); [nia | lia | exact Hp]. }
  assert (k < n)%nat as Hkn by nia.
  destruct (passes_complete n k Hkn) as [i Hi].
  { destruct (window (Z.of_nat k * step)); [|reflexivity].
    apply elem_of_nil in Hcw. destruct Hcw. }
  exists i, k. repeat split; [exact Hi | lia | lia | exact Hcw].
Qed.

(** With an overlap that is not smaller than the window the cursor never
    gets past the start of the text. *)
Lemma loop_stuck fuel st :
  chunk_size <= chunk_overlap -> start st <= 0 -> 0 < len text ->
  loop fuel st = NoFuel.
Proof.
  intros Hbad. revert st. induction fuel as [|fuel IH]; intros st Hst Hlen;
    rewrite loop_eq.
  - destruct (start st <? len text) eqn:E; [reflexivity | lia].
  - destruct (start st <? len text) eqn:E; [|lia].
    pose proof (pass_start text chunk_size chunk_overlap metadata st) as Hp.
    destruct (len text <=? start (pass st)) eqn:E'; [lia|]. simpl.
    rewrite IH by lia. reflexivity.
Qed.

Lemma chunk_data_metadata (w : pystr) (i : Z) (k : string) (v : pyval) :
  default ∅ metadata !! k = Some v -> chunk_data w i !! k = Some v.
Proof. intros H. unfold Chunker.chunk_data. apply lookup_union_Some_l, H. Qed.

Lemma chunk_data_dom (w : pystr) (i : Z) :
  dom (chunk_data w i)
  = dom (default ∅ metadata) ∪ {[ "text"; "chunk_index" ]}.
Proof.
  unfold Chunker.chunk_data.
  rewrite dom_union_L, !dom_insert_L, dom_empty_L. set_solver.
Qed.

End Run.

End ChunkerMore.

(** ** The loop over the documents *)

Module DocumentsFacts.
Import Chunker ChunkerSpec ExtraSpec PyStrFacts ChunkerFacts StripFacts
  ChunkerMore.

(** A chunk of a list built by passes of the loop is cut from a window
    of the text, when the metadata does not itself have a text. *)
Lemma emitted_cut_from (text : pystr) (chunk_size chunk_overlap : Z)
    (metadata : option pydict) (cs : list pydict) (n : nat) (c : pydict) :
  0 < chunk_size ->
  default ∅ metadata !! "text" = None ->
  emitted text chunk_size chunk_overlap metadata cs n ->
  c ∈ cs ->
  cut_from text chunk_size chunk_overlap c.
Proof.
  intros Hsize Hmd Hem Hin. apply list_elem_of_lookup in Hin as [i Hi].
  destruct (Hem i c Hi) as (k & _ & Hne & ->).
  exists k, (window text chunk_size
               (Z.of_nat k * (chunk_size - chunk_overlap))).
  cbv zeta. repeat split.
  - apply chunk_data_text, Hmd.
  - apply nonempty_true, Hne.
  - apply window_length, Hsize.
Qed.

Lemma chunk_text_chunk (text : pystr) (chunk_size chunk_overlap : Z)
    (metadata : option pydict) (fuel : nat) (cs : list pydict) (c : pydict) :
  chunk_text text chunk_size chunk_overlap metadata fuel = Ret cs ->
  c ∈ cs ->
  exists n, emitted text chunk_size chunk_overlap metadata cs n.
Proof.
  intros H _. apply chunk_text_inv in H as [n H].
  apply chunk_text_passes_inv in H as [m ->].
  exists m. apply passes_emitted.
Qed.

Section Documents.
Variable fuel : nat.
Variable chunk_size chunk_overlap : Z.

Local Abbreviation from :=
  (chunk_documents_from fuel chunk_size chunk_overlap).

Local Abbreviation chunks_of := (chunks_of fuel chunk_size chunk_overlap).

(** The list built so far is only added to. *)
Lemma from_acc (docs : list pydict) : forall acc,
  from acc docs = obind (from [] docs) (fun r => Ret (acc ++ r)).
Proof.
  induction docs as [|doc rest IH]; intros acc; simpl.
  - rewrite app_nil_r. reflexivity.
  - fold (chunks_of doc). destruct (chunks_of doc) as [a| |]; simpl;
      try reflexivity.
    rewrite (IH (acc ++ a)), (IH a).
    destruct (from [] rest) as [b| |]; simpl; try reflexivity.
    rewrite app_assoc. reflexivity.
Qed.

Lemma from_cons (doc : pydict) (rest : list pydict) :
  from [] (doc :: rest)
  = obind (chunks_of doc)
      (fun a => obind (from [] rest) (fun b => Ret (a ++ b))).
Proof.
  simpl. fold (chunks_of doc). destruct (chunks_of doc) as [a| |]; simpl;
    try reflexivity.
  apply from_acc.
Qed.

Lemma from_app (docs1 docs2 : list pydict) :
  from [] (docs1 ++ docs2)
  = obind (from [] docs1)
      (fun a => obind (from [] docs2) (fun b => Ret (a ++ b))).
Proof.
  induction docs1 as [|doc rest IH].
  - simpl. destruct (from [] docs2); reflexivity.
  - rewrite <- app_comm_cons, !from_cons, IH.
    destruct (chunks_of doc) as [a| |]; simpl; try reflexivity.
    destruct (from [] rest) as [b| |]; simpl; try reflexivity.
    destruct (from [] docs2) as [c| |]; simpl; try reflexivity.
    rewrite app_assoc. reflexivity.
Qed.

(** Where a chunk of the result comes from. *)
Lemma from_elem (docs : list pydict) : forall cs c,
  from [] docs = Ret cs -> c ∈ cs ->
  exists doc a, doc ∈ docs /\ chunks_of doc = Ret a /\ c ∈ a.
Proof.
  induction docs as [|doc rest IH]; intros cs c Hrun Hin.
  - injection Hrun as <-. apply elem_of_nil in Hin. destruct Hin.
  - rewrite from_cons in Hrun.
    destruct (chunks_of doc) as [a| |] eqn:Ha; try discriminate.
    simpl in Hrun.
    destruct (from [] rest) as [b| |] eqn:Hb; try discriminate.
    injection Hrun as <-. apply elem_of_app in Hin as [Hin|Hin].
    + exists doc, a. split; [left|]. split; [exact Ha | exact Hin].
    + destruct (IH b c eq_refl Hin) as (d & a' & Hd & Ha' & Hc).
      exists d, a'. split; [right; exact Hd|]. split; assumption.
Qed.

End Documents.

End DocumentsFacts.

Module ChunkerExtras.
Import Chunker ChunkerSpec ExtraSpec PyStrFacts ChunkerFacts StripFacts
  ChunkerMore DocumentsFacts.

(** A blank text ends the run before the loop. *)
Lemma blank_run (text : pystr) (chunk_size chunk_overlap : Z)
    (metadata : option pydict) (fuel : nat) :
  Forall (fun c => isspace c = true) text ->
  chunk_text_passes text chunk_size chunk_overlap metadata fuel
  = Ret ([], 0%nat).
Proof.
  intros Hblank. unfold Chunker.chunk_text_passes.
  destruct (negb (nonempty text) || negb (nonempty (strip text))) eqn:Hb;
    [reflexivity|].
  apply strip_nil_iff in Hblank.
  apply (blank_test text) in Hblank. congruence.
Qed.

(** [X1] A text that is empty or all white space gives the empty list at
    once: whatever the window size and the overlap, also those for which
    the loop would not end, and without any pass of the loop. *)
Theorem blank_text_gives_no_chunk (text : pystr) (chunk_size chunk_overlap : Z)
    (metadata : option pydict) (fuel : nat) :
  Forall (fun c => isspace c = true) text ->
  chunk_text_passes text chunk_size chunk_overlap metadata fuel
  = Ret ([], 0%nat)
  /\ chunk_text text chunk_size chunk_overlap metadata fuel = Ret [].
Proof.
  intros Hblank.
  pose proof (blank_run text chunk_size chunk_overlap metadata fuel Hblank)
    as H.
  split; [exact H|]. unfold Chunker.chunk_text. rewrite H. reflexivity.
Qed.

(** The theorem at a text of blanks, a tab and a newline, with an overlap
    larger than the window and no fuel. *)
Lemma blank_text_gives_no_chunk_witness :
  chunk_text_passes [32; 9; 10; 32]%N 1 5 None 0 = Ret ([], 0%nat)
  /\ chunk_text [32; 9; 10; 32]%N 1 5 None 0 = Ret [].
Proof.
  apply (blank_text_gives_no_chunk [32; 9; 10; 32]%N 1 5 None 0).
  repeat constructor.
Defined.

(** [X2] With [0 <= overlap < window_size], the list [chunk_text]
    returns is empty exactly when the text is empty or all white space: a
    text with any other character gives at least one chunk. *)
Theorem empty_result_iff_blank (text : pystr) (window_size overlap : Z)
    (metadata : option pydict) (fuel : nat) (cs : list pydict) :
  0 <= overlap < window_size ->
  chunk_text text window_size overlap metadata fuel = Ret cs ->
  cs = [] <-> Forall (fun c => isspace c = true) text.
Proof.
  intros Hvalid Hrun. apply chunk_text_inv in Hrun as [n Hrun]. split.
  - intros ->. apply Forall_forall. intros c Hin.
    destruct (isspace c) eqn:Hc; [reflexivity|].
    apply list_elem_of_lookup in Hin as [p Hp].
    destruct (covered text window_size overlap metadata fuel [] n p c
                Hvalid Hrun Hp Hc) as (i & k & Hi & _).
    destruct i; discriminate.
  - intros Hblank.
    rewrite (blank_run text window_size overlap metadata fuel Hblank)
      in Hrun.
    injection Hrun as <- _. reflexivity.
Qed.

(** The theorem at ["ab"] with a window of 2. *)
Lemma empty_result_iff_blank_witness :
  [ plain_chunk (lit "ab") 0 ] = []
  <-> Forall (fun c => isspace c = true) (lit "ab").
Proof.
  apply (empty_result_iff_blank (lit "ab") 2 0 None 1);
    [lia | compute_done].
Defined.

(** [X3] With an overlap that is not smaller than the window, on a text
    that is not blank, [chunk_text] does not return: the cursor never
    passes the start of the text, so no amount of fuel is enough. *)
Theorem overlap_not_below_window_hangs (text : pystr)
    (chunk_size chunk_overlap : Z) (metadata : option pydict) (fuel : nat) :
  chunk_size <= chunk_overlap ->
  nonempty (strip text) = true ->
  chunk_text text chunk_size chunk_overlap metadata fuel = NoFuel.
Proof.
  intros Hbad Hne.
  unfold Chunker.chunk_text, Chunker.chunk_text_passes.
  assert (nonempty text = true) as Ht.
  { destruct text; [discriminate | reflexivity]. }
  rewrite Ht, Hne. simpl.
  rewrite (loop_stuck text chunk_size chunk_overlap metadata fuel init Hbad);
    [reflexivity | simpl; lia |].
  unfold len. destruct text; [discriminate | simpl; lia].
Qed.

(** The theorem at ["ab"] with window and overlap both 5, and a fuel of
    1000. *)
Lemma overlap_not_below_window_hangs_witness :
  chunk_text (lit "ab") 5 5 None 1000 = NoFuel.
Proof.
  apply (overlap_not_below_window_hangs (lit "ab") 5 5 None 1000);
    [lia | reflexivity].
Defined.

(** [X4] With [0 <= overlap < window_size], [chunk_text] returns at most
    [ceil(len(text) / (window_size - overlap))] chunks. *)
Theorem chunk_count_bounded (text : pystr) (window_size overlap : Z)
    (metadata : option pydict) (fuel : nat) (cs : list pydict) :
  0 <= overlap < window_size ->
  chunk_text text window_size overlap metadata fuel = Ret cs ->
  Z.of_nat (length cs) <= ceil_div (len text) (window_size - overlap).
Proof.
  intros Hvalid Hrun. apply chunk_text_inv in Hrun as [n Hrun].
  destruct (chunk_text_passes_total text window_size overlap metadata Hvalid)
    as (cs' & n' & Hbound & Hret & Hshort).
  destruct (le_lt_dec n' fuel) as [Hle|Hlt].
  - pose proof (Hret fuel Hle) as Hr.
    rewrite Hr in Hrun. injection Hrun as <- <-.
    apply run_cases in Hr as [(_ & -> & _)|(_ & -> & _)].
    + simpl. apply ceil_div_nonneg; unfold len; lia.
    + pose proof (passes_length text window_size overlap metadata n'). lia.
  - rewrite (Hshort fuel Hlt) in Hrun. discriminate.
Qed.

(** The theorem at the example text: at most four chunks. *)
Lemma chunk_count_bounded_witness :
  Z.of_nat (length [ plain_chunk (lit "AAAAAAAAAA BBBB") 0;
                     plain_chunk (lit "BBBBBBBBBB CCC") 1;
                     plain_chunk (lit "B CCCCCCCCCC") 2;
                     plain_chunk (lit "CC") 3 ])
  <= ceil_div (len example_text) (15 - 5).
Proof.
  apply (chunk_count_bounded example_text 15 5 None 4);
    [lia | compute_done].
Defined.

(** [X5] Every chunk [chunk_text] returns carries every entry of the
    metadata as it was given, and has no key besides those of the metadata,
    ["text"] and ["chunk_index"]. *)
Theorem metadata_on_every_chunk (text : pystr) (chunk_size chunk_overlap : Z)
    (metadata : option pydict) (fuel : nat) (cs : list pydict) (c : pydict) :
  chunk_text text chunk_size chunk_overlap metadata fuel = Ret cs ->
  c ∈ cs ->
  (forall k v, default ∅ metadata !! k = Some v -> c !! k = Some v)
  /\ dom c = dom (default ∅ metadata) ∪ {[ "text"; "chunk_index" ]}.
Proof.
  intros Hrun Hin.
  destruct (chunk_text_chunk _ _ _ _ _ _ _ Hrun Hin) as [n Hem].
  apply list_elem_of_lookup in Hin as [i Hi].
  destruct (Hem i c Hi) as (k & _ & _ & ->). split.
  - intros key v. apply chunk_data_metadata.
  - apply chunk_data_dom.
Qed.

(** The theorem at ["ab"] with the metadata of a PDF section. *)
Lemma metadata_on_every_chunk_witness :
  (forall k v,
     default ∅ (Some (delete "text" (PipelineSpec.page_of "a.pdf" "ab")))
       !! k = Some v ->
     chunk_data (Some (delete "text" (PipelineSpec.page_of "a.pdf" "ab")))
       (lit "ab") 0 !! k = Some v)
  /\ dom (chunk_data
            (Some (delete "text" (PipelineSpec.page_of "a.pdf" "ab")))
            (lit "ab") 0)
     = dom (default ∅
              (Some (delete "text" (PipelineSpec.page_of "a.pdf" "ab"))))
         ∪ {[ "text"; "chunk_index" ]}.
Proof.
  apply (metadata_on_every_chunk (lit "ab") 500 50
           (Some (delete "text" (PipelineSpec.page_of "a.pdf" "ab"))) 1
           [ chunk_data
               (Some (delete "text" (PipelineSpec.page_of "a.pdf" "ab")))
               (lit "ab") 0 ]);
    [compute_done | left].
Defined.

(** [X6] With [0 <= overlap < window_size] no character is lost: the run
    returns, and every position of the text that holds a character other
    than white space lies in the window of a chunk of the list, whose text
    has that character. *)
Theorem no_character_lost (text : pystr) (window_size overlap : Z)
    (metadata : option pydict) :
  0 <= overlap < window_size ->
  exists (cs : list pydict) (n : nat),
    (forall fuel, (n <= fuel)%nat ->
       chunk_text text window_size overlap metadata fuel = Ret cs)
    /\ forall (p : nat) (c : N),
         text !! p = Some c -> isspace c = false ->
         exists (i k : nat),
           let s := Z.of_nat k * (window_size - overlap) in
           cs !! i
           = Some (chunk_data metadata (window text window_size s)
                     (Z.of_nat i))
           /\ s <= Z.of_nat p < s + window_size
           /\ c ∈ window text window_size s.
Proof.
  intros Hvalid.
  destruct (chunk_text_passes_total text window_size overlap metadata Hvalid)
    as (cs & n & _ & Hret & _).
  exists cs, n. split.
  - intros fuel Hf. eapply chunk_text_of_passes, Hret, Hf.
  - intros p c Hp Hc. cbv zeta.
    apply (covered text window_size overlap metadata n cs n p c Hvalid);
      [apply Hret; lia | exact Hp | exact Hc].
Qed.

(** The theorem at the example text. *)
Lemma no_character_lost_witness :
  exists (cs : list pydict) (n : nat),
    (forall fuel, (n <= fuel)%nat ->
       chunk_text example_text 15 5 None fuel = Ret cs)
    /\ forall (p : nat) (c : N),
         example_text !! p = Some c -> isspace c = false ->
         exists (i k : nat),
           let s := Z.of_nat k * (15 - 5) in
           cs !! i
           = Some (chunk_data None (window example_text 15 s) (Z.of_nat i))
           /\ s <= Z.of_nat p < s + 15
           /\ c ∈ window example_text 15 s.
Proof. apply (no_character_lost example_text 15 5 None). lia. Defined.

(** [X7] [chunk_documents] chunks each document by itself and puts the
    results one after the other in the order of the documents: the result
    for a list followed by another is the result for the first followed by
    the result for the second, and the first document that raises, or
    whose chunking does not end, decides the outcome. *)
Theorem chunk_documents_concatenates (fuel : nat) (chunk_size chunk_overlap : Z)
    (docs1 docs2 : list pydict) :
  chunk_documents fuel (docs1 ++ docs2) chunk_size chunk_overlap
  = obind (chunk_documents fuel docs1 chunk_size chunk_overlap)
      (fun a =>
         obind (chunk_documents fuel docs2 chunk_size chunk_overlap)
           (fun b => Ret (a ++ b)))
  /\ (forall doc,
        chunk_documents fuel [doc] chunk_size chunk_overlap
        = chunks_of fuel chunk_size chunk_overlap doc)
  /\ chunk_documents fuel [] chunk_size chunk_overlap = Ret [].
Proof.
  split; [apply from_app|]. split; [|reflexivity].
  intros doc. unfold chunk_documents. rewrite from_cons. simpl.
  destruct (chunks_of fuel chunk_size chunk_overlap doc); simpl;
    [rewrite app_nil_r|..]; reflexivity.
Qed.

(** [X8] For [chunk_size > 0], every chunk [chunk_documents] returns
    comes from one of the documents: its text is the trimmed slice of a
    window of that document's text, neither empty nor longer than
    [chunk_size], and it carries every other entry of the document, such
    as the document name and the page number, as it is. *)
Theorem chunk_documents_chunks (fuel : nat) (chunk_size chunk_overlap : Z)
    (docs cs : list pydict) (c : pydict) :
  0 < chunk_size ->
  chunk_documents fuel docs chunk_size chunk_overlap = Ret cs ->
  c ∈ cs ->
  exists (doc : pydict) (t : pystr),
    doc ∈ docs
    /\ doc !! "text" = Some (VStr t)
    /\ cut_from t chunk_size chunk_overlap c
    /\ forall k v, k <> "text" -> doc !! k = Some v -> c !! k = Some v.
Proof.
  intros Hsize Hrun Hin.
  destruct (from_elem fuel chunk_size chunk_overlap docs cs c Hrun Hin)
    as (doc & a & Hdoc & Ha & Hc).
  unfold chunks_of, chunk_text_value in Ha.
  destruct (doc !! "text") as [[| | | |t]|] eqn:Ht; simpl in Ha;
    try (repeat case_match; try discriminate; injection Ha as <-;
         apply elem_of_nil in Hc; destruct Hc).
  - exists doc, t. split; [exact Hdoc|]. split; [exact Ht|].
    destruct (chunk_text_chunk _ _ _ _ _ _ _ Ha Hc) as [n Hem]. split.
    + apply (emitted_cut_from t chunk_size chunk_overlap
               (Some (delete "text" doc)) a n c Hsize);
        [apply lookup_delete_eq | exact Hem | exact Hc].
    + intros k v Hk Hv. apply list_elem_of_lookup in Hc as [i Hi].
      destruct (Hem i c Hi) as (j & _ & _ & ->).
      apply chunk_data_metadata. simpl.
      rewrite lookup_delete_ne by congruence. exact Hv.
Qed.

(** The theorem at a batch of two one-page documents. *)
Lemma chunk_documents_chunks_witness :
  exists (doc : pydict) (t : pystr),
    doc ∈ PipelineSpec.two_documents
    /\ doc !! "text" = Some (VStr t)
    /\ cut_from t 500 50
         (chunk_data
            (Some (delete "text" (PipelineSpec.page_of "b.pdf" "beta")))
            (lit "beta") 0)
    /\ forall k v, k <> "text" -> doc !! k = Some v ->
         chunk_data
           (Some (delete "text" (PipelineSpec.page_of "b.pdf" "beta")))
           (lit "beta") 0 !! k = Some v.
Proof.
  apply (chunk_documents_chunks 1 500 50 PipelineSpec.two_documents
           [ chunk_data
               (Some (delete "text" (PipelineSpec.page_of "a.pdf" "alpha")))
               (lit "alpha") 0;
             chunk_data
               (Some (delete "text" (PipelineSpec.page_of "b.pdf" "beta")))
               (lit "beta") 0 ]);
    [lia | compute_done | right; left].
Defined.

End ChunkerExtras.

(** ** The loaders *)

Module LoaderFacts.
Import Loaders ExtraSpec StripFacts.

Lemma has_text_iff (t : pystr) :
  nonempty t && nonempty (strip t) = true <-> strip t <> [].
Proof.
  destruct t as [|c r]; simpl.
  - split; [discriminate|]. intros H. destruct H. reflexivity.
  - destruct (strip (c :: r)); simpl; split; congruence.
Qed.

Lemma sections_from_cons key filename num t rest :
  sections_from key filename num (t :: rest)
  = if nonempty t && nonempty (strip t)
    then section_of key filename num (strip t)
           :: sections_from key filename (num + 1) rest
    else sections_from key filename (num + 1) rest.
Proof. reflexivity. Qed.

(** The sections are those of the units that have text, each numbered
    by the place of its unit. *)
Lemma sections_from_elem key filename (texts : list pystr) : forall num d,
  d ∈ sections_from key filename num texts
  <-> exists (i : nat) t,
        texts !! i = Some t /\ strip t <> []
        /\ d = section_of key filename (num + Z.of_nat i) (strip t).
Proof.
  induction texts as [|t rest IH]; intros num d.
  - simpl. split.
    + intros H. apply elem_of_nil in H. destruct H.
    + intros (i & t & H & _). destruct i; discriminate.
  - rewrite sections_from_cons. split.
    + intros H.
      destruct (nonempty t && nonempty (strip t)) eqn:Ht.
      * apply elem_of_cons in H as [->|H].
        -- exists 0%nat, t. rewrite Z.add_0_r.
           repeat split. apply has_text_iff, Ht.
        -- apply IH in H as (i & u & Hi & Hu & ->).
           exists (S i), u. repeat split; [exact Hi | exact Hu |].
           f_equal. lia.
      * apply IH in H as (i & u & Hi & Hu & ->).
        exists (S i), u. repeat split; [exact Hi | exact Hu |].
        f_equal. lia.
    + intros ([|i] & u & Hi & Hu & ->); simpl in Hi.
      * injection Hi as ->. apply has_text_iff in Hu. rewrite Hu.
        rewrite Z.add_0_r. left.
      * assert (section_of key filename (num + Z.of_nat (S i)) (strip u)
                ∈ sections_from key filename (num + 1) rest) as Hin.
        { apply IH. exists i, u. repeat split; [exact Hi | exact Hu |].
          f_equal. lia. }
        destruct (nonempty t && nonempty (strip t)); [right|]; exact Hin.
Qed.

(** The sections come in the order of their units. *)
Lemma sections_from_order key filename (texts : list pystr) :
  forall num (a b : nat) da db,
  (a < b)%nat ->
  sections_from key filename num texts !! a = Some da ->
  sections_from key filename num texts !! b = Some db ->
  exists (i j : nat) ti tj,
    (i < j)%nat /\ texts !! i = Some ti /\ texts !! j = Some tj
    /\ da = section_of key filename (num + Z.of_nat i) (strip ti)
    /\ db = section_of key filename (num + Z.of_nat j) (strip tj).
Proof.
  induction texts as [|t rest IH]; intros num a b da db Hab Ha Hb.
  - destruct a; discriminate.
  - rewrite sections_from_cons in Ha, Hb.
    assert (forall a b, (a < b)%nat ->
              sections_from key filename (num + 1) rest !! a = Some da ->
              sections_from key filename (num + 1) rest !! b = Some db ->
              exists (i j : nat) ti tj,
                (i < j)%nat /\ (t :: rest) !! i = Some ti
                /\ (t :: rest) !! j = Some tj
                /\ da = section_of key filename (num + Z.of_nat i) (strip ti)
                /\ db = section_of key filename (num + Z.of_nat j) (strip tj))
      as Htail.
    { intros a' b' Hab' Ha' Hb'.
      destruct (IH _ _ _ _ _ Hab' Ha' Hb')
        as (i & j & ti & tj & Hij & Hi & Hj & -> & ->).
      exists (S i), (S j), ti, tj.
      repeat split; [lia | exact Hi | exact Hj | f_equal; lia | f_equal; lia]. }
    destruct (nonempty t && nonempty (strip t)); [|eapply Htail; eassumption].
    destruct a as [|a]; destruct b as [|b]; try lia; simpl in Ha, Hb.
    + injection Ha as <-.
      assert (db ∈ sections_from key filename (num + 1) rest) as Hin
        by (apply list_elem_of_lookup; eauto).
      apply sections_from_elem in Hin as (j & tj & Hj & _ & ->).
      exists 0%nat, (S j), t, tj.
      repeat split; [lia | exact Hj | f_equal; lia | f_equal; lia].
    + apply (Htail a b); [lia | exact Ha | exact Hb].
Qed.

Lemma existsb_eqb_elem (sep : N) (s : pystr) :
  existsb (N.eqb sep) s = true <-> sep ∈ s.
Proof.
  rewrite existsb_exists. split.
  - intros (x & Hin & Hx). apply N.eqb_eq in Hx as <-.
    apply list_elem_of_In, Hin.
  - intros Hin. exists sep. split; [apply list_elem_of_In, Hin|].
    apply N.eqb_refl.
Qed.

(** The last field of a split: all of a text without the separator, and
    what follows the last separator otherwise. *)
Lemma last_field_whole (sep : N) (s : pystr) :
  sep ∉ s -> last_field sep s = s.
Proof.
  induction s as [|c r IH]; intros Hs; simpl; [reflexivity|].
  assert (c <> sep) as Hc by (intros ->; apply Hs; left).
  assert (sep ∉ r) as Hr by (intros H; apply Hs; right; exact H).
  apply N.eqb_neq in Hc. rewrite Hc.
  destruct (existsb (N.eqb sep) r) eqn:E; [|reflexivity].
  apply existsb_eqb_elem in E. contradiction.
Qed.

Lemma last_field_after (sep : N) (a b : pystr) :
  sep ∉ b -> last_field sep (a ++ sep :: b) = b.
Proof.
  intros Hb. induction a as [|c r IH]; simpl.
  - rewrite N.eqb_refl.
    destruct b as [|x b']; [reflexivity|]. apply last_field_whole, Hb.
  - destruct (c =? sep)%N; [exact IH|].
    assert (existsb (N.eqb sep) (r ++ sep :: b) = true) as ->.
    { apply existsb_eqb_elem. apply elem_of_app. right. left. }
    exact IH.
Qed.

End LoaderFacts.

Module LoaderExtras.
Import Loaders IngestionPipeline ExtraSpec PipelineSpec StripFacts LoaderFacts.

(** [X9] When the PDF reader gives the page texts, [load_pdf] returns one
    section for each page that has text once trimmed, and no other: the
    section holds the trimmed text, the file name, and as page number the
    1-based place of the page in the file, so a page without text leaves
    a gap in the numbers.  The sections come in page order.  [load_docx]
    does the same with paragraphs and ["paragraph_index"].  When the reader
    raises, so does the loader. *)
Theorem loaders_number_units (svc : services) (content : list Byte.byte)
    (filename : pystr) :
  (forall pages,
     pdf_pages svc content = Reply pages ->
     exists sections,
       load_pdf svc content filename = Ret sections
       /\ numbered "page_number" filename pages sections)
  /\ (forall paragraphs,
        docx_paragraphs svc content = Reply paragraphs ->
        exists sections,
          load_docx svc content filename = Ret sections
          /\ numbered "paragraph_index" filename paragraphs sections)
  /\ (forall e, pdf_pages svc content = Fails e ->
        load_pdf svc content filename = Raise e)
  /\ (forall e, docx_paragraphs svc content = Fails e ->
        load_docx svc content filename = Raise e).
Proof.
  assert (forall key texts,
            numbered key filename texts
              (sections_from key filename 1 texts)) as Hnum.
  { intros key texts. split.
    - intros d. apply sections_from_elem.
    - intros a b da db. apply sections_from_order. }
  unfold load_pdf, load_docx. repeat split.
  - intros pages ->. eexists. split; [reflexivity | apply Hnum].
  - intros paragraphs ->. eexists. split; [reflexivity | apply Hnum].
  - intros e ->. reflexivity.
  - intros e ->. reflexivity.
Qed.

(** A PDF of three pages of which the second is blank: two sections,
    numbered 1 and 3. *)
Lemma blank_page_leaves_a_gap :
  load_pdf demo_services [Byte.x68; Byte.x20; Byte.x69] (lit "a.pdf")
  = Ret [ section_of "page_number" (lit "a.pdf") 1 (lit "h");
          section_of "page_number" (lit "a.pdf") 3 (lit "i") ].
Proof. compute_done. Qed.

(** [X10] [load_document] goes by what follows the last dot of the
    lower-cased file name, or by the whole lower-cased name when it has no
    dot: ["pdf"] is read as a PDF, ["docx"] and ["doc"] as a Word document,
    and anything else raises a [ValueError] that names the extension. *)
Theorem load_document_by_extension (svc : services)
    (content : list Byte.byte) (filename ext : pystr) :
  46%N ∉ ext ->
  str_lower svc filename = ext
  \/ (exists stem, str_lower svc filename = stem ++ 46%N :: ext) ->
  (ext = pdf_ext ->
   load_document svc content filename = load_pdf svc content filename)
  /\ (ext = docx_ext \/ ext = doc_ext ->
      load_document svc content filename = load_docx svc content filename)
  /\ (ext <> pdf_ext -> ext <> docx_ext -> ext <> doc_ext ->
      load_document svc content filename
      = Raise (ValueError (lit "Unsupported file type: " ++ ext))).
Proof.
  intros Hext Hname.
  assert (last_field 46%N (str_lower svc filename) = ext) as Hlast.
  { destruct Hname as [->|[stem ->]].
    - apply last_field_whole, Hext.
    - apply last_field_after, Hext. }
  unfold load_document, pystr_eqb. rewrite Hlast.
  repeat split.
  - intros ->. reflexivity.
  - intros [->| ->]; reflexivity.
  - intros H1 H2 H3.
    rewrite !bool_decide_eq_false_2 by assumption. reflexivity.
Qed.

(** The theorem at ["Report.PDF"] under the services of the examples. *)
Lemma load_document_by_extension_witness :
  (lit "pdf" = pdf_ext ->
   load_document demo_services [Byte.x68] (lit "Report.PDF")
   = load_pdf demo_services [Byte.x68] (lit "Report.PDF"))
  /\ (lit "pdf" = docx_ext \/ lit "pdf" = doc_ext ->
      load_document demo_services [Byte.x68] (lit "Report.PDF")
      = load_docx demo_services [Byte.x68] (lit "Report.PDF"))
  /\ (lit "pdf" <> pdf_ext -> lit "pdf" <> docx_ext -> lit "pdf" <> doc_ext ->
      load_document demo_services [Byte.x68] (lit "Report.PDF")
      = Raise (ValueError (lit "Unsupported file type: " ++ lit "pdf"))).
Proof.
  apply (load_document_by_extension demo_services [Byte.x68]
           (lit "Report.PDF") (lit "pdf")).
  - compute_done.
  - right. exists (lit "report"). reflexivity.
Defined.

(** A file whose name is just ["pdf"] is read as a PDF, and a name that
    ends in a dot has the empty extension, which is refused. *)
Lemma extension_edge_cases :
  load_document demo_services [Byte.x68] (lit "pdf")
  = load_pdf demo_services [Byte.x68] (lit "pdf")
  /\ load_document demo_services [Byte.x68] (lit "notes.")
     = Raise (ValueError (lit "Unsupported file type: ")).
Proof. split; compute_done. Qed.

End LoaderExtras.

(** ** More on retrieval and answers *)

Module RetrievalExtras.
Import Retriever RAGPipeline PipelineSpec ExtraSpec RetrievalFacts.

(** [X11] When the embedding call raises, or returns no vector,
    [retrieve] raises, the first with the same exception and the second
    with an [IndexError], and in both cases the vector store is not
    called and the clock is not read. *)
Theorem retrieve_without_embedding (svc : services) (self : Retriever.t)
    (query : pystr) (top_k : Z) (w : world) :
  (forall e,
     embeddings_create svc (calls w) (embedding_model self) [VStr query]
     = Fails e ->
     retrieve svc self query top_k w
     = (Raise e,
        World (clock_reads w) (calls w ++ [query_embedding_call self query])))
  /\ (embeddings_create svc (calls w) (embedding_model self) [VStr query]
      = Reply [] ->
      retrieve svc self query top_k w
      = (Raise IndexError,
         World (clock_reads w) (calls w ++ [query_embedding_call self query]))).
Proof.
  unfold retrieve, generate_query_embedding, bind, call_embeddings,
    query_embedding_call.
  split.
  - intros e ->. reflexivity.
  - intros ->. reflexivity.
Qed.




(** The loop of [construct_prompt] stops with a [KeyError] at the first
    chunk without a text. *)
Lemma context_parts_from_missing (svc : services) (chunks : list pydict) :
  forall i acc,
  Exists (fun chunk : pydict => chunk !! "text" = None) chunks ->
  context_parts_from svc i acc chunks = Raise (KeyError "text").
Proof.
  induction chunks as [|chunk rest IH]; intros i acc Hex.
  - inversion Hex.
  - simpl. unfold context_part.
    destruct (chunk !! "text") as [text|] eqn:Ht; simpl; [|reflexivity].
    apply IH. inversion Hex as [? ? Hhere|? ? Hlater]; subst;
      [congruence | exact Hlater].
Qed.

(** [X13] [construct_prompt] returns a prompt exactly when every chunk
    has an entry under ["text"]; when some chunk has none it raises
    [KeyError("text")].  The query and the other entries of the chunks
    play no part in this. *)
Theorem construct_prompt_needs_text (svc : services) (query : pystr)
    (chunks : list pydict) :
  (Forall has_text chunks ->
   construct_prompt svc query chunks
   = Ret (prompt_of (join nl (blocks_from svc 1 chunks)) query))
  /\ (Exists (fun chunk : pydict => chunk !! "text" = None) chunks ->
      construct_prompt svc query chunks = Raise (KeyError "text"))
  /\ (Forall has_text chunks
      \/ Exists (fun chunk : pydict => chunk !! "text" = None) chunks).
Proof.
  split; [apply construct_prompt_ok|]. split.
  - intros Hex. unfold construct_prompt, context_parts.
    rewrite (context_parts_from_missing svc chunks 1 [] Hex). reflexivity.
  - induction chunks as [|chunk rest [IH|IH]].
    + left. constructor.
    + destruct (chunk !! "text") as [t|] eqn:Ht.
      * left. constructor; [unfold has_text; rewrite Ht; eauto | exact IH].
      * right. left. exact Ht.
    + right. right. exact IH.
Qed.

(** [X14] When retrieval yields at least one chunk, every chunk has a
    text and the recorded latency is a number, [generate_answer] calls the
    chat model once, after retrieval, with the model name, the fixed
    system prompt and the prompt [construct_prompt] builds from the query
    and the chunks.  If the model replies, the answer returned is the
    reply, the chunks are the retrieved ones in their order, and the three
    latencies are rounded; if the call raises, so does [generate_answer]. *)
Theorem answer_from_chunks (svc : services)
    (retrieve : pystr -> Z -> M Retriever.retrieval) (llm_model query : pystr)
    (top_k : Z) (w w1 : world) (r : Retriever.retrieval) (latency : pyval) :
  retrieve query top_k (tick w) = (Ret r, w1) ->
  Retriever.chunks r <> [] ->
  Forall has_text (Retriever.chunks r) ->
  py_round2 svc (Retriever.retrieval_latency_ms r) = Ret latency ->
  let prompt :=
    prompt_of (join nl (blocks_from svc 1 (Retriever.chunks r))) query in
  let asked := EvChat llm_model system_prompt prompt in
  let t0 := time_time svc (clock_reads w) in
  let t1 := time_time svc (clock_reads w1) in
  let t2 := time_time svc (S (clock_reads w1)) in
  let t3 := time_time svc (S (S (clock_reads w1))) in
  (forall reply_text,
     chat_create svc (calls w1) llm_model system_prompt prompt
     = Reply reply_text ->
     generate_answer svc retrieve llm_model query top_k w
     = (Ret (AnswerResult reply_text (Retriever.chunks r) latency
               (VFloat (float_round2 svc (float_elapsed_ms svc t1 t2)))
               (VFloat (float_round2 svc (float_elapsed_ms svc t0 t3)))),
        World (S (S (S (clock_reads w1)))) (calls w1 ++ [asked])))
  /\ (forall e,
        chat_create svc (calls w1) llm_model system_prompt prompt = Fails e ->
        generate_answer svc retrieve llm_model query top_k w
        = (Raise e, World (S (clock_reads w1)) (calls w1 ++ [asked]))).
Proof.
  intros Hret Hsome Htext Hround. cbv zeta.
  unfold generate_answer, bind, now. fold (tick w). rewrite Hret.
  destruct (Retriever.chunks r) as [|c cs] eqn:Hcs; [congruence|].
  unfold lift. rewrite (construct_prompt_ok svc query (c :: cs) Htext).
  unfold call_chat. cbn [clock_reads calls]. split.
  - intros reply_text ->. cbn [of_reply clock_reads calls].
    rewrite Hround. reflexivity.
  - intros e ->. reflexivity.
Qed.

(** The theorem at a retriever that answers with one chunk. *)
Lemma answer_from_chunks_witness :
  let r :=
    Retriever.Retrieval [PipelineSpec.page_of "a.pdf" "alpha"] (VInt 7)
      (lit "q") in
  let prompt :=
    prompt_of (join nl (blocks_from demo_services 1 (Retriever.chunks r)))
      (lit "q") in
  let asked := EvChat (lit "m") system_prompt prompt in
  (forall reply_text,
     chat_create demo_services [] (lit "m") system_prompt prompt
     = Reply reply_text ->
     generate_answer demo_services (fun _ _ => ret r) (lit "m") (lit "q") 5
       (World 0 [])
     = (Ret (AnswerResult reply_text (Retriever.chunks r) (VInt 7)
               (VFloat (float_round2 demo_services
                          (float_elapsed_ms demo_services
                             (time_time demo_services 1)
                             (time_time demo_services 2))))
               (VFloat (float_round2 demo_services
                          (float_elapsed_ms demo_services
                             (time_time demo_services 0)
                             (time_time demo_services 3))))),
        World 4 ([] ++ [asked])))
  /\ (forall e,
        chat_create demo_services [] (lit "m") system_prompt prompt
        = Fails e ->
        generate_answer demo_services (fun _ _ => ret r) (lit "m") (lit "q") 5
          (World 0 [])
        = (Raise e, World 2 ([] ++ [asked]))).
Proof.
  apply (answer_from_chunks demo_services
           (fun _ _ =>
              ret (Retriever.Retrieval [PipelineSpec.page_of "a.pdf" "alpha"]
                     (VInt 7) (lit "q")))
           (lit "m") (lit "q") 5 (World 0 []) (World 1 [])
           (Retriever.Retrieval [PipelineSpec.page_of "a.pdf" "alpha"]
              (VInt 7) (lit "q")) (VInt 7)).
  - reflexivity.
  - discriminate.
  - repeat constructor. unfold has_text. compute_done.
  - reflexivity.
Defined.

(** [X15] [generate_answer] does not call the chat model when retrieval
    raises, nor when a retrieved chunk has no text: it raises the
    exception of the retrieval in the first case and [KeyError("text")]
    in the second, and the calls made are those of the retrieval. *)
Theorem no_answer_without_context (svc : services)
    (retrieve : pystr -> Z -> M Retriever.retrieval) (llm_model query : pystr)
    (top_k : Z) (w w1 : world) :
  (forall e,
     retrieve query top_k (tick w) = (Raise e, w1) ->
     generate_answer svc retrieve llm_model query top_k w = (Raise e, w1))
  /\ (forall r,
        retrieve query top_k (tick w) = (Ret r, w1) ->
        Exists (fun chunk : pydict => chunk !! "text" = None)
          (Retriever.chunks r) ->
        generate_answer svc retrieve llm_model query top_k w
        = (Raise (KeyError "text"), w1)).
Proof.
  unfold generate_answer, bind, now. fold (tick w). split.
  - intros e ->. reflexivity.
  - intros r -> Hex.
    destruct (Retriever.chunks r) as [|c cs] eqn:Hcs; [inversion Hex|].
    unfold lift, construct_prompt, context_parts.
    rewrite (context_parts_from_missing svc (c :: cs) 1 [] Hex).
    reflexivity.
Qed.

End RetrievalExtras.

(** ** More on ingestion *)

Module IngestMore.
Import IngestionPipeline PipelineSpec ExtraSpec RetrievalFacts.

(** What [record_metadata] holds under each of its keys. *)
Lemma record_metadata_lookup (chunk : pydict) :
  record_metadata chunk !! "document_name"
  = Some (default (VStr []) (chunk !! "document_name"))
  /\ record_metadata chunk !! "text"
     = Some (default (VStr []) (chunk !! "text"))
  /\ record_metadata chunk !! "chunk_index"
     = Some (default (VInt 0) (chunk !! "chunk_index"))
  /\ record_metadata chunk !! "page_number" = chunk !! "page_number"
  /\ record_metadata chunk !! "paragraph_index" = chunk !! "paragraph_index".
Proof.
  unfold record_metadata.
  destruct (chunk !! "page_number") as [p|],
           (chunk !! "paragraph_index") as [q|];
    cbn [list_to_map foldr fst snd curry uncurry];
    repeat split;
    repeat first [ rewrite lookup_insert_eq
                 | rewrite lookup_insert_ne by discriminate
                 | rewrite lookup_empty ];
    reflexivity.
Qed.

Lemma record_metadata_dom (chunk : pydict) :
  dom (record_metadata chunk)
  = {[ "document_name"; "text"; "chunk_index" ]}
      ∪ (dom chunk ∩ {[ "page_number"; "paragraph_index" ]}).
Proof.
  apply set_eq. intros k.
  rewrite elem_of_union, elem_of_intersection, !elem_of_dom.
  destruct (record_metadata_lookup chunk) as (H1 & H2 & H3 & H4 & H5).
  destruct (decide (k = "document_name")) as [->|N1];
    [rewrite H1; split; [set_solver | eauto]|].
  destruct (decide (k = "text")) as [->|N2];
    [rewrite H2; split; [set_solver | eauto]|].
  destruct (decide (k = "chunk_index")) as [->|N3];
    [rewrite H3; split; [set_solver | eauto]|].
  destruct (decide (k = "page_number")) as [->|N4];
    [rewrite H4; split; [set_solver | intros [?|[? _]]; [set_solver|auto]]|].
  destruct (decide (k = "paragraph_index")) as [->|N5];
    [rewrite H5; split; [set_solver | intros [?|[? _]]; [set_solver|auto]]|].
  assert (record_metadata chunk !! k = None) as ->.
  { unfold record_metadata.
    destruct (chunk !! "page_number") as [p|],
             (chunk !! "paragraph_index") as [q|];
      cbn [list_to_map foldr fst snd curry uncurry];
      repeat rewrite lookup_insert_ne by congruence;
      apply lookup_empty. }
  split; [intros [? ?]; discriminate|].
  intros [Hk|[_ Hk]];
    repeat (apply elem_of_union in Hk as [Hk|Hk]);
    apply elem_of_singleton in Hk; congruence.
Qed.

Lemma zip_length {A B} (l : list A) (k : list B) :
  length (zip l k) = Nat.min (length l) (length k).
Proof.
  revert k. induction l as [|a l IH]; intros [|b k]; simpl; try reflexivity.
  rewrite IH. reflexivity.
Qed.

Lemma zip_lookup {A B} (l : list A) (k : list B) (i : nat) (a : A) (b : B) :
  l !! i = Some a -> k !! i = Some b -> zip l k !! i = Some (a, b).
Proof.
  revert k i. induction l as [|x l IH]; intros [|y k] [|i] Ha Hb;
    simpl in *; try discriminate.
  - congruence.
  - apply IH; assumption.
Qed.

Lemma prepare_from_length (svc : services)
    (pairs : list (pydict * embedding)) : forall idx,
  length (prepare_from svc idx pairs) = length pairs.
Proof.
  induction pairs as [|[c e] rest IH]; intros idx; simpl; [reflexivity|].
  rewrite IH. reflexivity.
Qed.

Lemma prepare_from_lookup (svc : services)
    (pairs : list (pydict * embedding)) : forall idx i c e,
  pairs !! i = Some (c, e) ->
  prepare_from svc idx pairs !! i
  = Some (VectorRecord (chunk_id svc c (idx + Z.of_nat i)) e
            (record_metadata c)).
Proof.
  induction pairs as [|[c' e'] rest IH]; intros idx i c e H;
    [discriminate|].
  destruct i as [|i]; simpl in *.
  - injection H as -> ->. rewrite Z.add_0_r. reflexivity.
  - rewrite (IH (idx + 1) i c e H). do 3 f_equal. lia.
Qed.

End IngestMore.

Module IngestExtras.
Import IngestionPipeline Retriever RAGPipeline PipelineSpec ExtraSpec
  RetrievalFacts IngestFacts IngestMore.

(** The location of a normalised chunk is that of the metadata it was
    built from. *)
Lemma location_chunk_of (svc : services) (item : hit) (md : pydict) :
  location svc (chunk_of item md) = location svc md.
Proof.
  unfold location.
  rewrite chunk_of_page_number, chunk_of_paragraph_index,
    chunk_of_chunk_index.
  reflexivity.
Qed.

(** The location of a stored chunk is that of the chunk. *)
Lemma location_record_metadata (svc : services) (chunk : pydict) :
  location svc (record_metadata chunk) = location svc chunk.
Proof.
  unfold location.
  destruct (record_metadata_lookup chunk) as (_ & _ & -> & -> & ->).
  destruct (chunk !! "chunk_index"); reflexivity.
Qed.

(** [X16] What ingestion stores for a chunk is what retrieval reads
    back.  A hit whose metadata is the metadata stored for a chunk
    normalises to a chunk with the same text, document name and chunk
    index (the empty string and 0 for those the chunk did not have) and
    the same page number and paragraph index ([None] for those it did not
    have).  Its citation has the same location as that of the chunk
    ingested, and is the same citation when the chunk has a document
    name. *)
Theorem stored_chunk_reads_back (svc : services) (chunk : pydict)
    (id score : option pyval) :
  let item := Hit id score (Some (MetaDict (record_metadata chunk))) in
  let back := chunk_of item (record_metadata chunk) in
  normalize [item] = Ret [back]
  /\ back !! "text" = Some (default (VStr []) (chunk !! "text"))
  /\ back !! "document_name"
     = Some (default (VStr []) (chunk !! "document_name"))
  /\ back !! "chunk_index" = Some (default (VInt 0) (chunk !! "chunk_index"))
  /\ back !! "page_number" = Some (default VNone (chunk !! "page_number"))
  /\ back !! "paragraph_index"
     = Some (default VNone (chunk !! "paragraph_index"))
  /\ location svc back = location svc chunk
  /\ (is_Some (chunk !! "document_name") ->
      format_citation svc back = format_citation svc chunk).
Proof.
  cbv zeta.
  destruct (record_metadata_lookup chunk) as (Hn & Ht & Hi & Hp & Hq).
  split; [reflexivity|].
  rewrite chunk_of_text, chunk_of_document_name, chunk_of_chunk_index,
    chunk_of_page_number, chunk_of_paragraph_index, Hn, Ht, Hi, Hp, Hq.
  repeat split.
  - rewrite location_chunk_of. apply location_record_metadata.
  - intros [v Hv]. unfold format_citation.
    rewrite location_chunk_of, location_record_metadata,
      chunk_of_document_name, Hn, Hv.
    reflexivity.
Qed.

(** A chunk of page 3 of a PDF, ingested and retrieved, is cited by its
    page. *)
Lemma round_trip_citation :
  format_citation demo_services
    (chunk_of (Hit (Some (VStr (lit "a.pdf_0"))) (Some (VInt 1))
                 (Some (MetaDict
                          (record_metadata
                             (Chunker.chunk_data
                                (Some (delete "text"
                                         (section_of "page_number"
                                            (lit "a.pdf") 3 (lit "alpha"))))
                                (lit "alpha") 0)))))
       (record_metadata
          (Chunker.chunk_data
             (Some (delete "text"
                      (section_of "page_number" (lit "a.pdf") 3
                         (lit "alpha"))))
             (lit "alpha") 0)))
  = lit "[a.pdf " ++ [en_dash] ++ lit " page 3]".
Proof. compute_done. Qed.

(** [X17] The citation of a normalised hit names the document as the
    hit's metadata has it, and with the empty string when the metadata has
    no document name: the word [Unknown], which [format_citation] uses
    for a chunk without a document name, is never shown for a chunk that
    comes from [retrieve]. *)
Theorem retrieved_citation (svc : services) (item : hit) (md : pydict) :
  format_citation svc (chunk_of item md)
  = lit "[" ++ py_str svc (default (VStr []) (md !! "document_name"))
      ++ [32%N; en_dash; 32%N] ++ location svc md ++ lit "]"
  /\ (md !! "document_name" = None ->
      format_citation svc (chunk_of item md)
      = lit "[" ++ [32%N; en_dash; 32%N] ++ location svc md ++ lit "]")
  /\ (forall chunk : pydict,
        chunk !! "document_name" = None ->
        format_citation svc chunk
        = lit "[Unknown" ++ [32%N; en_dash; 32%N] ++ location svc chunk
            ++ lit "]").
Proof.
  assert (format_citation svc (chunk_of item md)
          = lit "[" ++ py_str svc (default (VStr []) (md !! "document_name"))
              ++ [32%N; en_dash; 32%N] ++ location svc md ++ lit "]") as H.
  { unfold format_citation.
    rewrite location_chunk_of, chunk_of_document_name. reflexivity. }
  split; [exact H|]. split.
  - intros Hnone. rewrite H, Hnone. reflexivity.
  - intros chunk Hnone. unfold format_citation. rewrite Hnone. reflexivity.
Qed.

(** [X18] The records prepared for the vector store are as many as the
    shorter of the chunk list and the embedding list: when the embedding
    model returns fewer vectors than there are chunks, the chunks beyond
    them get no record.  The record at place [i] has the id of chunk [i],
    embedding [i] as its vector and the metadata stored for chunk [i]. *)
Theorem prepared_vectors (svc : services) (chunks : list pydict)
    (embeddings : list embedding) :
  length (prepare_vectors svc chunks embeddings)
  = Nat.min (length chunks) (length embeddings)
  /\ (forall (i : nat) chunk e,
        chunks !! i = Some chunk -> embeddings !! i = Some e ->
        prepare_vectors svc chunks embeddings !! i
        = Some (VectorRecord (chunk_id svc chunk (Z.of_nat i)) e
                  (record_metadata chunk)))
  /\ (forall i : nat,
        (length embeddings <= i)%nat ->
        prepare_vectors svc chunks embeddings !! i = None).
Proof.
  unfold prepare_vectors. split; [|split].
  - rewrite prepare_from_length. apply zip_length.
  - intros i chunk e Hc He.
    rewrite (prepare_from_lookup svc _ 0 i chunk e
               (zip_lookup _ _ _ _ _ Hc He)).
    reflexivity.
  - intros i Hi. apply lookup_ge_None.
    rewrite prepare_from_length, zip_length. lia.
Qed.

(** [X19] The metadata stored with a chunk has the document name, the
    text and the chunk index, with the empty string, the empty string and
    0 for those the chunk does not have, and the page number and the
    paragraph index exactly when the chunk has them.  Every other entry of
    the chunk is left out. *)
Theorem stored_metadata_keys (chunk : pydict) :
  dom (record_metadata chunk)
  = {[ "document_name"; "text"; "chunk_index" ]}
      ∪ (dom chunk ∩ {[ "page_number"; "paragraph_index" ]})
  /\ record_metadata chunk !! "document_name"
     = Some (default (VStr []) (chunk !! "document_name"))
  /\ record_metadata chunk !! "text"
     = Some (default (VStr []) (chunk !! "text"))
  /\ record_metadata chunk !! "chunk_index"
     = Some (default (VInt 0) (chunk !! "chunk_index"))
  /\ record_metadata chunk !! "page_number" = chunk !! "page_number"
  /\ record_metadata chunk !! "paragraph_index" = chunk !! "paragraph_index".
Proof.
  split; [apply record_metadata_dom | apply record_metadata_lookup].
Qed.

Lemma getitem_elapsed (d : pydict) (v : pyval) :
  getitem (<["elapsed_ms" := v]> d) "elapsed_ms" = Ret v.
Proof. unfold getitem. rewrite lookup_insert_eq. reflexivity. Qed.

Lemma getitem_other (d : pydict) (v : pyval) (key : string) :
  key <> "elapsed_ms" ->
  getitem (<["elapsed_ms" := v]> d) key = getitem d key.
Proof.
  intros H. unfold getitem. rewrite lookup_insert_ne by congruence.
  reflexivity.
Qed.

Lemma texts_of_ok (chunks : list pydict) :
  Forall has_text chunks -> texts_of chunks = Ret (texts_list chunks).
Proof.
  induction 1 as [|c rest [t Ht] _ IH]; simpl; [reflexivity|].
  rewrite Ht, IH. reflexivity.
Qed.

(** Every chunk [chunk_documents] returns has a text. *)
Lemma chunk_documents_have_text (fuel : nat) (chunk_size chunk_overlap : Z)
    (docs cs : list pydict) :
  Chunker.chunk_documents fuel docs chunk_size chunk_overlap = Ret cs ->
  Forall has_text cs.
Proof.
  intros Hrun. apply Forall_forall. intros c Hin.
  destruct (DocumentsFacts.from_elem fuel chunk_size chunk_overlap docs cs c
              Hrun Hin) as (doc & a & _ & Ha & Hc).
  unfold chunks_of, Chunker.chunk_text_value in Ha.
  assert (forall t,
            Chunker.chunk_text t chunk_size chunk_overlap
              (Some (delete "text" doc)) fuel = Ret a ->
            has_text c) as Hstr.
  { intros t Hrun'.
    destruct (DocumentsFacts.chunk_text_chunk _ _ _ _ _ _ _ Hrun' Hc)
      as [n Hem].
    apply list_elem_of_lookup in Hc as [i Hi].
    destruct (Hem i c Hi) as (k & _ & _ & ->).
    unfold has_text. rewrite ChunkerFacts.chunk_data_text; [eauto|].
    apply lookup_delete_eq. }
  destruct (default (VStr []) (doc !! "text")) as [| b | z | f | t];
    simpl in Ha; try (eapply Hstr; eassumption);
    repeat case_match; try discriminate; injection Ha as <-;
    apply elem_of_nil in Hc; destruct Hc.
Qed.

(** [X20] When at least one section was loaded and chunking gave at
    least one chunk, [ingest_documents] calls the embedding model once
    with the texts of all chunks in order, and then posts once to the
    vectors address of the index the records prepared from the chunks and
    the vectors returned.  If the answer of the store has a ["count"],
    ingestion returns success with that count as [vectors_stored], the
    number of chunks as [chunks_created], and as [files_processed] the
    number of files it was given, those that failed to load included; if
    the answer has no ["count"], it raises [KeyError("count")], the
    records having been sent. *)
Theorem ingest_success (svc : services) (self : IngestionPipeline.t) (fuel : nat)
    (files : list file) (w : world) (chunks : list pydict)
    (embeddings : list embedding) (resp : response) (body : json_body) :
  loaded svc files <> [] ->
  Chunker.chunk_documents fuel (loaded svc files)
    (chunk_size self) (chunk_overlap self) = Ret chunks ->
  chunks <> [] ->
  let embed := EvEmbeddings (IngestionPipeline.embedding_model self) (texts_list chunks) in
  let vectors := VectorsPayload (prepare_vectors svc chunks embeddings) in
  let post := EvPost (vectors_url self) vectors in
  embeddings_create svc (calls w) (IngestionPipeline.embedding_model self) (texts_list chunks)
  = Reply embeddings ->
  session_post svc (calls w ++ [embed]) (vectors_url self) vectors
  = Reply resp ->
  json resp = Reply body ->
  let after := World (S (S (clock_reads w))) (calls w ++ [embed] ++ [post]) in
  let elapsed :=
    VFloat (float_round2 svc
              (float_elapsed_ms svc (time_time svc (clock_reads w))
                 (time_time svc (S (clock_reads w))))) in
  (forall count,
     body_fields body !! "count" = Some count ->
     ingest_documents svc self fuel files w
     = (Ret (success (length files) (length chunks) count elapsed), after))
  /\ (body_fields body !! "count" = None ->
      ingest_documents svc self fuel files w
      = (Raise (KeyError "count"), after)).
Proof.
  intros Hloaded Hchunks Hsome. cbv zeta. intros Hemb Hpost Hjson.
  pose proof (chunk_documents_have_text _ _ _ _ _ Hchunks) as Htext.
  assert (forall k : list pydict -> M pydict,
            bind (lift (load_all svc [] files)) k w
            = k (loaded svc files) w) as Hstep.
  { intros k. unfold bind, lift.
    rewrite (load_all_loaded svc files []). reflexivity. }
  assert (ingest_documents svc self fuel files w
          = (match body_fields body !! "count" with
             | Some count =>
                 Ret (success (length files) (length chunks) count
                        (VFloat (float_round2 svc
                                   (float_elapsed_ms svc
                                      (time_time svc (clock_reads w))
                                      (time_time svc (S (clock_reads w)))))))
             | None => Raise (KeyError "count")
             end,
             World (S (S (clock_reads w)))
               (calls w
                  ++ [EvEmbeddings (IngestionPipeline.embedding_model self)
                        (texts_list chunks)]
                  ++ [EvPost (vectors_url self)
                        (VectorsPayload
                           (prepare_vectors svc chunks embeddings))])))
    as Hrun.
  { unfold ingest_documents. rewrite Hstep.
    destruct (loaded svc files) as [|doc docs]; [congruence|].
    unfold bind at 1. unfold lift at 1. rewrite Hchunks.
    destruct chunks as [|c cs]; [congruence|].
    unfold bind at 1. unfold lift at 1. rewrite (texts_of_ok _ Htext).
    unfold generate_embeddings, EndeeClient.insert_documents, bind,
      call_embeddings, call_post, now, lift, ret, vectors_url in *.
    rewrite Hemb. cbn [of_reply clock_reads calls].
    rewrite Hpost. cbn [of_reply clock_reads calls].
    rewrite Hjson. cbn [of_reply]. rewrite <- app_assoc.
    assert ("count" <> "elapsed_ms") as Hne by discriminate.
    rewrite getitem_elapsed.
    match goal with
    | |- context [getitem (insert ?k ?v ?d) "count"] =>
        pose proof (getitem_other d v "count" Hne) as Hget
    end.
    rewrite Hget. unfold getitem.
    destruct (body_fields body !! "count"); reflexivity. }
  rewrite Hrun. split.
  - intros count ->. reflexivity.
  - intros ->. reflexivity.
Qed.

(** The theorem at the two files of the examples. *)
Lemma ingest_success_witness :
  let embed :=
    EvEmbeddings (IngestionPipeline.embedding_model demo_pipeline)
      (texts_list [demo_chunk]) in
  let vectors :=
    VectorsPayload (prepare_vectors demo_services [demo_chunk] [[0]]) in
  let post := EvPost (vectors_url demo_pipeline) vectors in
  let after := World 2 ([] ++ [embed] ++ [post]) in
  let elapsed :=
    VFloat (float_round2 demo_services
              (float_elapsed_ms demo_services (time_time demo_services 0)
                 (time_time demo_services 1))) in
  (forall count,
     body_fields demo_body !! "count" = Some count ->
     ingest_documents demo_services demo_pipeline 1 demo_files (World 0 [])
     = (Ret (success (length demo_files) (length [demo_chunk]) count elapsed),
        after))
  /\ (body_fields demo_body !! "count" = None ->
      ingest_documents demo_services demo_pipeline 1 demo_files (World 0 [])
      = (Raise (KeyError "count"), after)).
Proof.
  apply (ingest_success demo_services demo_pipeline 1 demo_files (World 0 [])
           [demo_chunk] [[0]] (Response (Reply demo_body)) demo_body).
  - compute_done.
  - compute_done.
  - discriminate.
  - reflexivity.
  - reflexivity.
  - reflexivity.
Defined.




End IngestExtras.

(** ** From the loaders to the chunker *)

Module SectionsFacts.
Import PyStr Chunker Loaders IngestionPipeline ChunkerSpec PipelineSpec
  ExtraSpec ChunkerFacts StripFacts ChunkerMore DocumentsFacts LoaderFacts.

(** A section built by a loader holds a text that begins with a character
    other than white space. *)
Lemma sections_from_text key filename (texts : list pystr) num d :
  d ∈ sections_from key filename num texts ->
  exists c r, d !! "text" = Some (VStr (c :: r)) /\ isspace c = false.
Proof.
  intros Hd. apply sections_from_elem in Hd as (i & t & _ & Hne & ->).
  destruct (strip t) as [|c r] eqn:Hs; [congruence|].
  exists c, r. split; [|apply (strip_head t c r Hs)].
  unfold section_of. simpl. apply lookup_insert_eq.
Qed.

Lemma loaded_text (svc : services) (files : list file) (d : pydict) :
  d ∈ loaded svc files ->
  exists c r, d !! "text" = Some (VStr (c :: r)) /\ isspace c = false.
Proof.
  unfold loaded. intros Hd.
  apply list_elem_of_In, in_flat_map in Hd as ([content name] & _ & Hd).
  apply list_elem_of_In in Hd. simpl in Hd.
  destruct (load_document svc content name) as [docs| |] eqn:Hload;
    try (apply elem_of_nil in Hd; destruct Hd).
  unfold load_document, load_pdf, load_docx in Hload.
  repeat case_match; try discriminate;
    match type of Hload with
    | obind (of_reply ?r) _ = _ =>
        destruct r; simpl in Hload; try discriminate
    end;
    injection Hload as <-; eapply sections_from_text, Hd.
Qed.

Section Sections.
Variable chunk_size chunk_overlap : Z.
Hypothesis Hvalid : 0 <= chunk_overlap < chunk_size.

(** Such a document gives at least one chunk, which carries its other
    entries. *)
Lemma chunks_of_section (doc : pydict) (c : N) (r : pystr) :
  doc !! "text" = Some (VStr (c :: r)) -> isspace c = false ->
  exists (n : nat) (cs : list pydict) (ch : pydict),
    (forall fuel, (n <= fuel)%nat ->
       chunks_of fuel chunk_size chunk_overlap doc = Ret cs)
    /\ ch ∈ cs
    /\ (forall k v, k <> "text" -> doc !! k = Some v -> ch !! k = Some v).
Proof.
  intros Hdoc Hc. unfold chunks_of. rewrite Hdoc. simpl.
  destruct (chunk_text_passes_total (c :: r) chunk_size chunk_overlap
              (Some (delete "text" doc)) Hvalid)
    as (cs & n & _ & Hret & _).
  destruct (covered (c :: r) chunk_size chunk_overlap
              (Some (delete "text" doc)) n cs n 0%nat c Hvalid
              (Hret n (Nat.le_refl n)) eq_refl Hc)
    as (i & k & Hi & _).
  exists n, cs. eexists. split; [|split].
  - intros fuel Hf. eapply chunk_text_of_passes, Hret, Hf.
  - apply list_elem_of_lookup. exists i. exact Hi.
  - intros key v Hkey Hv. apply chunk_data_metadata. simpl.
    rewrite lookup_delete_ne by congruence. exact Hv.
Qed.

Lemma from_sections (docs : list pydict) :
  (forall d, d ∈ docs ->
     exists c r, d !! "text" = Some (VStr (c :: r)) /\ isspace c = false) ->
  exists (n : nat) (cs : list pydict),
    (forall fuel, (n <= fuel)%nat ->
       chunk_documents fuel docs chunk_size chunk_overlap = Ret cs)
    /\ (forall d, d ∈ docs ->
          exists ch, ch ∈ cs
            /\ forall k v, k <> "text" -> d !! k = Some v -> ch !! k = Some v)
    /\ (length docs <= length cs)%nat.
Proof.
  unfold chunk_documents.
  induction docs as [|doc rest IH]; intros Hall.
  - exists 0%nat, []. split; [reflexivity|]. split; [|simpl; lia].
    intros d Hd. apply elem_of_nil in Hd. destruct Hd.
  - destruct IH as (n2 & b & Hb & Hrest & Hlen).
    { intros d Hd. apply Hall. right. exact Hd. }
    destruct (Hall doc) as (c & r & Hdoc & Hc); [left|].
    destruct (chunks_of_section doc c r Hdoc Hc)
      as (n1 & a & ch & Ha & Hch & Hcarry).
    exists (Nat.max n1 n2), (a ++ b). split; [|split].
    + intros fuel Hf. rewrite from_cons, (Ha fuel) by lia. simpl.
      rewrite (Hb fuel) by lia. reflexivity.
    + intros d Hd. apply elem_of_cons in Hd as [->|Hd].
      * exists ch. split; [apply elem_of_app; left; exact Hch | exact Hcarry].
      * destruct (Hrest d Hd) as (ch' & Hin & Hk).
        exists ch'. split; [apply elem_of_app; right; exact Hin | exact Hk].
    + destruct a as [|x a]; [apply elem_of_nil in Hch; destruct Hch|].
      simpl. rewrite length_app. lia.
Qed.

End Sections.

End SectionsFacts.

Module SectionsExtras.
Import PyStr Chunker IngestionPipeline PipelineSpec ExtraSpec SectionsFacts.

(** [X22] With [0 <= chunk_overlap < chunk_size], chunking the sections
    that the loaders gave for a batch of files ends, and no section is
    lost: every section has a chunk that carries its document name and its
    page number or paragraph index, so there are at least as many chunks
    as sections.  When a section was loaded, the list of chunks is
    therefore not empty. *)
Theorem loaded_sections_all_chunked (svc : services) (files : list file)
    (chunk_size chunk_overlap : Z) :
  0 <= chunk_overlap < chunk_size ->
  exists (n : nat) (cs : list pydict),
    (forall fuel, (n <= fuel)%nat ->
       chunk_documents fuel (loaded svc files) chunk_size chunk_overlap
       = Ret cs)
    /\ (forall d, d ∈ loaded svc files ->
          exists ch, ch ∈ cs
            /\ forall k v, k <> "text" -> d !! k = Some v -> ch !! k = Some v)
    /\ (length (loaded svc files) <= length cs)%nat.
Proof.
  intros Hvalid. apply from_sections; [exact Hvalid|].
  intros d. apply loaded_text.
Qed.

(** The theorem at the two files of the examples. *)
Lemma loaded_sections_all_chunked_witness :
  exists (n : nat) (cs : list pydict),
    (forall fuel, (n <= fuel)%nat ->
       chunk_documents fuel (loaded demo_services demo_files) 500 50
       = Ret cs)
    /\ (forall d, d ∈ loaded demo_services demo_files ->
          exists ch, ch ∈ cs
            /\ forall k v, k <> "text" -> d !! k = Some v -> ch !! k = Some v)
    /\ (length (loaded demo_services demo_files) <= length cs)%nat.
Proof.
  apply (loaded_sections_all_chunked demo_services demo_files 500 50). lia.
Defined.

End SectionsExtras.
